(** * English-Learning: verification of the audio engine and session controller

    The development embeds, function by function, the TypeScript sources of
    the application:
      - services/geminiService : [decodeBase64], [decodeAudioData];
      - components/VoicePlayer : the playback engine and its progress loop;
      - App                    : the session controller, the word lookup and
                                 the turn synchroniser.

    Conventions of the embedding.
      - A JavaScript number that is finite is a rational ([Q]) and arithmetic
        on finite numbers is exact; the results of a division, which may be
        [NaN] or infinite, live in [jsnum].
      - A string is a [string]; one [ascii] stands for one code unit.
      - A [Uint8Array] is a [list byte]; typed-array writes outside the array
        are ignored and reads outside it are [undefined], as in the language.
      - Asynchronous functions are cut at their [await]s into the steps that
        the event loop runs; event handlers read the state of the render
        they were created in, and the closures they create keep the values
        captured at creation. *)

From Stdlib Require Import ZArith QArith Qround Qminmax List String Ascii Bool Lia.
From Stdlib Require Import Strings.Byte DecimalString.
Import ListNotations.

Local Open Scope Z_scope.

(** ** JavaScript values shared by the three modules *)

Inductive jsnum : Type :=
| Fin (q : Q)
| PosInf
| NegInf
| NaN.

Inductive Error : Type :=
| RangeError
| NotSupportedError
| InvalidCharacterError
| ServiceError.

Inductive Result (A : Type) : Type :=
| Ok (a : A)
| Throw (e : Error).
Arguments Ok {A} a.
Arguments Throw {A} e.

(** [a / b] on finite operands, the divisor being [+0] when it is zero. *)
Definition jsdiv (a b : Q) : jsnum :=
  if Qeq_bool b 0 then
    if Qeq_bool a 0 then NaN
    else if Qle_bool 0 a then PosInf else NegInf
  else Fin (a / b).

(** [x * 100] and [x / 100]. *)
Definition js_times100 (x : jsnum) : jsnum :=
  match x with
  | Fin q => Fin (q * 100)
  | other => other
  end.


(** [Math.min(x, y)] for a finite [y]. *)
Definition js_min (x : jsnum) (y : Q) : jsnum :=
  match x with
  | Fin q => Fin (Qmin q y)
  | PosInf => Fin y
  | NegInf => NegInf
  | NaN => NaN
  end.


Definition js_ltb (x y : jsnum) : bool :=
  match x, y with
  | NaN, _ | _, NaN => false
  | Fin a, Fin b => negb (Qle_bool b a)
  | NegInf, NegInf => false
  | PosInf, _ => false
  | NegInf, _ => true
  | Fin _, PosInf => true
  | Fin _, NegInf => false
  end.



(** * services/geminiService: the PCM decoder *)

Module Pcm.

(** [AudioBuffer]: [numberOfChannels] arrays of [length] samples. *)
Record AudioBuffer : Type := mkAudioBuffer {
  channels : list (list jsnum);
  length : nat;
  sampleRate : Q
}.

Definition numberOfChannels (b : AudioBuffer) : nat := List.length (channels b).

(** [buffer.duration], in seconds. *)
Definition duration (b : AudioBuffer) : Q :=
  inject_Z (Z.of_nat (length b)) / sampleRate b.

(** [buffer.getChannelData(channel)[i]]. *)
Definition getSample (b : AudioBuffer) (channel i : nat) : option jsnum :=
  match nth_error (channels b) channel with
  | Some cd => nth_error cd i
  | None => None
  end.

(** One element of an [Int16Array] laid over two bytes; the platform is
    little-endian. *)
Definition int16_of_bytes (lo hi : byte) : Z :=
  let u := Z.of_N (Byte.to_N lo) + 256 * Z.of_N (Byte.to_N hi) in
  if u <? 32768 then u else u - 65536.

Fixpoint int16_view (data : list byte) : list Z :=
  match data with
  | lo :: hi :: rest => int16_of_bytes lo hi :: int16_view rest
  | _ => []
  end.

(** [new Int16Array(data.buffer)]: a [RangeError] unless the byte length is a
    multiple of the element size. *)
Definition Int16Array (data : list byte) : Result (list Z) :=
  if Nat.even (List.length data) then Ok (int16_view data) else Throw RangeError.

(** Conversion of a number to the [unsigned long] of an interface argument:
    truncation, [NaN] and the infinities giving 0 (lengths stay below 2^32). *)
Definition ToUint32 (x : jsnum) : nat :=
  match x with
  | Fin q => Z.to_nat (Qfloor q)
  | _ => 0%nat
  end.

(** [ctx.createBuffer(numberOfChannels, length, sampleRate)] of the Web Audio
    interface: a silent buffer, and a [NotSupportedError] when an argument is
    zero or negative. The upper limits of an implementation (channel count,
    memory) are not modelled. *)
Definition createBuffer (nChannels : nat) (len : jsnum) (rate : Q) : Result AudioBuffer :=
  let n := ToUint32 len in
  if (nChannels =? 0)%nat || (n =? 0)%nat || Qle_bool rate 0 then Throw NotSupportedError
  else Ok (mkAudioBuffer (repeat (repeat (Fin 0) n) nChannels) n rate).

(** [a[i] = v] on a typed array. *)
Fixpoint store (i : nat) (v : jsnum) (a : list jsnum) : list jsnum :=
  match a, i with
  | [], _ => []
  | _ :: t, O => v :: t
  | h :: t, S j => h :: store j v t
  end.

(** [dataInt16[k] / 32768.0]; [undefined / 32768.0] is [NaN]. *)
Definition sample_at (dataInt16 : list Z) (k : nat) : jsnum :=
  match nth_error dataInt16 k with
  | Some v => Fin (v # 32768)
  | None => NaN
  end.

(** Number of naturals [i] with [i < frameCount]. *)
Definition iterations (frameCount : jsnum) : nat :=
  match frameCount with
  | Fin q => Z.to_nat (Qceiling q)
  | _ => 0%nat
  end.

(** The inner loop, over [i]. *)
Definition fill_channel (dataInt16 : list Z) (numChannels channel : nat)
    (frameCount : jsnum) (channelData : list jsnum) : list jsnum :=
  fold_left
    (fun cd i => store i (sample_at dataInt16 (i * numChannels + channel)) cd)
    (seq 0 (iterations frameCount)) channelData.

(** Replaces channel [channel] of the buffer: the array returned by
    [getChannelData] aliases the buffer's storage. *)
Fixpoint set_channel (channel : nat) (cd : list jsnum) (chs : list (list jsnum))
    : list (list jsnum) :=
  match chs, channel with
  | [], _ => []
  | _ :: t, O => cd :: t
  | h :: t, S j => h :: set_channel j cd t
  end.

(** The body of the outer loop: [getChannelData(channel)] and the inner
    loop on it. *)
Definition fill_one (dataInt16 : list Z) (numChannels : nat) (frameCount : jsnum)
    (b : AudioBuffer) (channel : nat) : AudioBuffer :=
  match nth_error (channels b) channel with
  | Some channelData =>
      mkAudioBuffer
        (set_channel channel
           (fill_channel dataInt16 numChannels channel frameCount channelData)
           (channels b))
        (length b) (sampleRate b)
  | None => b
  end.

(** The outer loop, over [channel]. *)
Definition fill_buffer (dataInt16 : list Z) (numChannels : nat) (frameCount : jsnum)
    (buffer : AudioBuffer) : AudioBuffer :=
  fold_left (fill_one dataInt16 numChannels frameCount) (seq 0 numChannels) buffer.

(** [decodeAudioData(data, ctx, sampleRate, numChannels)]; the context is
    represented by [createBuffer]. A thrown error rejects the promise. *)
Definition decodeAudioData (data : list byte) (sampleRate : Q) (numChannels : nat)
    : Result AudioBuffer :=
  match Int16Array data with
  | Throw e => Throw e
  | Ok dataInt16 =>
      let frameCount :=
        jsdiv (inject_Z (Z.of_nat (List.length dataInt16)))
              (inject_Z (Z.of_nat numChannels)) in
      match createBuffer numChannels frameCount sampleRate with
      | Throw e => Throw e
      | Ok buffer => Ok (fill_buffer dataInt16 numChannels frameCount buffer)
      end
  end.

Definition default_sampleRate : Q := 24000.
Definition default_numChannels : nat := 1%nat.

(** The little-endian signed 16-bit integer held by byte pair [k] of a
    stream, written from the format's definition. *)
Definition le_int16 (data : list byte) (k : nat) : option Z :=
  match nth_error data (2 * k), nth_error data (2 * k + 1) with
  | Some lo, Some hi =>
      let unsigned := Z.of_N (Byte.to_N lo) + Z.of_N (Byte.to_N hi) * 2 ^ 8 in
      Some (if unsigned <? 2 ^ 15 then unsigned else unsigned - 2 ^ 16)
  | _, _ => None
  end.

(** A sample is a finite number of [[-1, 1]]. *)
Definition in_unit_range (s : jsnum) : Prop :=
  match s with
  | Fin q => (-1 <= q /\ q <= 1)%Q
  | _ => False
  end.

End Pcm.


(** ** [decodeBase64] *)

Module Base64.

Local Open Scope N_scope.

(** Value of a character of the base64 alphabet. *)
Definition sextet (c : ascii) : option N :=
  let n := N_of_ascii c in
  if (65 <=? n) && (n <=? 90) then Some (n - 65)
  else if (97 <=? n) && (n <=? 122) then Some (n - 71)
  else if (48 <=? n) && (n <=? 57) then Some (n + 4)
  else if n =? 43 then Some 62
  else if n =? 47 then Some 63
  else None.

Definition is_ascii_whitespace (c : ascii) : bool :=
  let n := N_of_ascii c in
  (n =? 9) || (n =? 10) || (n =? 12) || (n =? 13) || (n =? 32).

Definition is_pad (c : ascii) : bool := N_of_ascii c =? 61.

(** Removes one or two trailing padding characters. *)
Fixpoint strip_padding (l : list ascii) : list ascii :=
  match l with
  | [] => []
  | [p] => if is_pad p then [] else [p]
  | [p1; p2] =>
      if is_pad p2 then (if is_pad p1 then [] else [p1]) else [p1; p2]
  | c :: rest => c :: strip_padding rest
  end.

Fixpoint sextets (l : list ascii) : option (list N) :=
  match l with
  | [] => Some []
  | c :: rest =>
      match sextet c, sextets rest with
      | Some v, Some vs => Some (v :: vs)
      | _, _ => None
      end
  end.

(** Four sextets give three bytes; a trailing group of three gives two bytes
    and one of two gives one byte, the spare bits being dropped. *)
Fixpoint bytes_of_sextets (l : list N) : list N :=
  match l with
  | a :: b :: c :: d :: rest =>
      let n := a * 262144 + b * 4096 + c * 64 + d in
      (n / 65536) :: ((n / 256) mod 256) :: (n mod 256) :: bytes_of_sextets rest
  | [a; b; c] =>
      let n := a * 4096 + b * 64 + c in
      [n / 1024; (n / 4) mod 256]
  | [a; b] => [(a * 64 + b) / 16]
  | _ => []
  end.

(** [atob]: the forgiving base64 decoding of the platform. The result is a
    binary string, one character per byte. *)
Definition atob (base64 : string) : Result string :=
  let data := filter (fun c => negb (is_ascii_whitespace c)) (list_ascii_of_string base64) in
  let data :=
    if (N.of_nat (List.length data) mod 4 =? 0) then strip_padding data else data in
  if N.of_nat (List.length data) mod 4 =? 1 then Throw InvalidCharacterError
  else match sextets data with
       | None => Throw InvalidCharacterError
       | Some vs => Ok (string_of_list_ascii (map ascii_of_N (bytes_of_sextets vs)))
       end.

(** [decodeBase64(base64)]: one byte per character code of the binary
    string. *)
Definition decodeBase64 (base64 : string) : Result (list byte) :=
  match atob base64 with
  | Throw e => Throw e
  | Ok binaryString => Ok (map byte_of_ascii (list_ascii_of_string binaryString))
  end.

(** *** The encoding that [atob] inverts

    The audio payload of the service is standard base64 with padding
    (RFC 4648, section 4); this is the encoder of that format, written from
    the format's definition. *)

(** Character of a sextet in the base64 alphabet. *)
Definition alphabet (n : N) : ascii :=
  if n <? 26 then ascii_of_N (n + 65)
  else if n <? 52 then ascii_of_N (n + 71)
  else if n <? 62 then ascii_of_N (n - 4)
  else if n =? 62 then "+"%char
  else "/"%char.

(** Three octets give four characters; a last group of two octets gives
    three characters and one pad, a last single octet two characters and two
    pads. *)
Fixpoint encode_octets (l : list N) : list ascii :=
  match l with
  | a :: b :: c :: rest =>
      alphabet (a / 4) :: alphabet ((a mod 4) * 16 + b / 16)
        :: alphabet ((b mod 16) * 4 + c / 64) :: alphabet (c mod 64)
        :: encode_octets rest
  | [a; b] =>
      [alphabet (a / 4); alphabet ((a mod 4) * 16 + b / 16);
       alphabet ((b mod 16) * 4); "="%char]
  | [a] => [alphabet (a / 4); alphabet ((a mod 4) * 16); "="%char; "="%char]
  | [] => []
  end.

Definition encodeBase64 (bytes : list byte) : string :=
  string_of_list_ascii (encode_octets (map Byte.to_N bytes)).

End Base64.


(** * components/VoicePlayer: the playback engine *)

Module Player.

Import Pcm.
Local Open Scope Q_scope.

(** The values of the enclosing render that the closures created by one call
    of [playFromOffset] ([updateProgress] and [source.onended]) keep, with the
    local [duration]. *)
Record Capture : Type := mkCapture {
  cap_isPlaying : bool;
  cap_playbackSpeed : Q;
  cap_duration : Q;
  cap_onProgressUpdate : bool
}.

(** An [AudioBufferSourceNode] that has been started: its [onended] closure
    and whether [stop()] has been called on it. It leaves the context when
    its [ended] event has been delivered. *)
Record SourceNode : Type := mkSourceNode {
  node_id : nat;
  node_onended : Capture;
  node_stopped : bool
}.

Record State : Type := mkState {
  (* props *)
  base64Audio : option string;
  onProgressUpdate : bool;
  (* component state *)
  isPlaying : bool;
  progress : jsnum;
  playbackSpeed : Q;
  currentTimeDisplay : string;
  durationDisplay : string;
  (* refs *)
  audioContextRef : bool;
  sourceNodeRef : option nat;
  audioBufferRef : option AudioBuffer;
  startTimeRef : Q;
  offsetRef : Q;
  animationFrameRef : option nat;
  (* platform: started sources, pending animation frames, next handles *)
  sources : list SourceNode;
  frames : list (nat * Capture);
  nextSource : nat;
  nextFrame : nat;
  (* values passed to [onProgressUpdate], latest first *)
  reported : list jsnum
}.

Definition set_base64Audio v s :=
  mkState v (onProgressUpdate s) (isPlaying s) (progress s) (playbackSpeed s)
    (currentTimeDisplay s) (durationDisplay s) (audioContextRef s) (sourceNodeRef s)
    (audioBufferRef s) (startTimeRef s) (offsetRef s) (animationFrameRef s) (sources s)
    (frames s) (nextSource s) (nextFrame s) (reported s).

Definition setIsPlaying v s :=
  mkState (base64Audio s) (onProgressUpdate s) v (progress s) (playbackSpeed s)
    (currentTimeDisplay s) (durationDisplay s) (audioContextRef s) (sourceNodeRef s)
    (audioBufferRef s) (startTimeRef s) (offsetRef s) (animationFrameRef s) (sources s)
    (frames s) (nextSource s) (nextFrame s) (reported s).

Definition setProgress v s :=
  mkState (base64Audio s) (onProgressUpdate s) (isPlaying s) v (playbackSpeed s)
    (currentTimeDisplay s) (durationDisplay s) (audioContextRef s) (sourceNodeRef s)
    (audioBufferRef s) (startTimeRef s) (offsetRef s) (animationFrameRef s) (sources s)
    (frames s) (nextSource s) (nextFrame s) (reported s).

Definition setPlaybackSpeed v s :=
  mkState (base64Audio s) (onProgressUpdate s) (isPlaying s) (progress s) v
    (currentTimeDisplay s) (durationDisplay s) (audioContextRef s) (sourceNodeRef s)
    (audioBufferRef s) (startTimeRef s) (offsetRef s) (animationFrameRef s) (sources s)
    (frames s) (nextSource s) (nextFrame s) (reported s).

Definition setCurrentTimeDisplay v s :=
  mkState (base64Audio s) (onProgressUpdate s) (isPlaying s) (progress s)
    (playbackSpeed s) v (durationDisplay s) (audioContextRef s) (sourceNodeRef s)
    (audioBufferRef s) (startTimeRef s) (offsetRef s) (animationFrameRef s) (sources s)
    (frames s) (nextSource s) (nextFrame s) (reported s).

Definition setDurationDisplay v s :=
  mkState (base64Audio s) (onProgressUpdate s) (isPlaying s) (progress s)
    (playbackSpeed s) (currentTimeDisplay s) v (audioContextRef s) (sourceNodeRef s)
    (audioBufferRef s) (startTimeRef s) (offsetRef s) (animationFrameRef s) (sources s)
    (frames s) (nextSource s) (nextFrame s) (reported s).

Definition set_audioContextRef v s :=
  mkState (base64Audio s) (onProgressUpdate s) (isPlaying s) (progress s)
    (playbackSpeed s) (currentTimeDisplay s) (durationDisplay s) v (sourceNodeRef s)
    (audioBufferRef s) (startTimeRef s) (offsetRef s) (animationFrameRef s) (sources s)
    (frames s) (nextSource s) (nextFrame s) (reported s).

Definition set_sourceNodeRef v s :=
  mkState (base64Audio s) (onProgressUpdate s) (isPlaying s) (progress s)
    (playbackSpeed s) (currentTimeDisplay s) (durationDisplay s) (audioContextRef s) v
    (audioBufferRef s) (startTimeRef s) (offsetRef s) (animationFrameRef s) (sources s)
    (frames s) (nextSource s) (nextFrame s) (reported s).

Definition set_audioBufferRef v s :=
  mkState (base64Audio s) (onProgressUpdate s) (isPlaying s) (progress s)
    (playbackSpeed s) (currentTimeDisplay s) (durationDisplay s) (audioContextRef s)
    (sourceNodeRef s) v (startTimeRef s) (offsetRef s) (animationFrameRef s) (sources s)
    (frames s) (nextSource s) (nextFrame s) (reported s).

Definition set_startTimeRef v s :=
  mkState (base64Audio s) (onProgressUpdate s) (isPlaying s) (progress s)
    (playbackSpeed s) (currentTimeDisplay s) (durationDisplay s) (audioContextRef s)
    (sourceNodeRef s) (audioBufferRef s) v (offsetRef s) (animationFrameRef s)
    (sources s) (frames s) (nextSource s) (nextFrame s) (reported s).

Definition set_offsetRef v s :=
  mkState (base64Audio s) (onProgressUpdate s) (isPlaying s) (progress s)
    (playbackSpeed s) (currentTimeDisplay s) (durationDisplay s) (audioContextRef s)
    (sourceNodeRef s) (audioBufferRef s) (startTimeRef s) v (animationFrameRef s)
    (sources s) (frames s) (nextSource s) (nextFrame s) (reported s).

Definition set_animationFrameRef v s :=
  mkState (base64Audio s) (onProgressUpdate s) (isPlaying s) (progress s)
    (playbackSpeed s) (currentTimeDisplay s) (durationDisplay s) (audioContextRef s)
    (sourceNodeRef s) (audioBufferRef s) (startTimeRef s) (offsetRef s) v (sources s)
    (frames s) (nextSource s) (nextFrame s) (reported s).

Definition set_sources v s :=
  mkState (base64Audio s) (onProgressUpdate s) (isPlaying s) (progress s)
    (playbackSpeed s) (currentTimeDisplay s) (durationDisplay s) (audioContextRef s)
    (sourceNodeRef s) (audioBufferRef s) (startTimeRef s) (offsetRef s)
    (animationFrameRef s) v (frames s) (nextSource s) (nextFrame s) (reported s).

Definition set_frames v s :=
  mkState (base64Audio s) (onProgressUpdate s) (isPlaying s) (progress s)
    (playbackSpeed s) (currentTimeDisplay s) (durationDisplay s) (audioContextRef s)
    (sourceNodeRef s) (audioBufferRef s) (startTimeRef s) (offsetRef s)
    (animationFrameRef s) (sources s) v (nextSource s) (nextFrame s) (reported s).

Definition set_nextSource v s :=
  mkState (base64Audio s) (onProgressUpdate s) (isPlaying s) (progress s)
    (playbackSpeed s) (currentTimeDisplay s) (durationDisplay s) (audioContextRef s)
    (sourceNodeRef s) (audioBufferRef s) (startTimeRef s) (offsetRef s)
    (animationFrameRef s) (sources s) (frames s) v (nextFrame s) (reported s).

Definition set_nextFrame v s :=
  mkState (base64Audio s) (onProgressUpdate s) (isPlaying s) (progress s)
    (playbackSpeed s) (currentTimeDisplay s) (durationDisplay s) (audioContextRef s)
    (sourceNodeRef s) (audioBufferRef s) (startTimeRef s) (offsetRef s)
    (animationFrameRef s) (sources s) (frames s) (nextSource s) v (reported s).

Definition set_reported v s :=
  mkState (base64Audio s) (onProgressUpdate s) (isPlaying s) (progress s)
    (playbackSpeed s) (currentTimeDisplay s) (durationDisplay s) (audioContextRef s)
    (sourceNodeRef s) (audioBufferRef s) (startTimeRef s) (offsetRef s)
    (animationFrameRef s) (sources s) (frames s) (nextSource s) (nextFrame s) v.

(** The component as first rendered, before its effects run. Frame handles
    are positive. *)
Definition init (audio : option string) (listener : bool) : State :=
  mkState audio listener false (Fin 0) 1 "0:00" "0:00"
          false None None 0 0 None [] [] 1%nat 1%nat [].

(** *** Display of a time *)

(** Decimal text of an integer, with two characters at least for
    [padStart(2, '0')]. *)
Definition string_of_Z (z : Z) : string := NilZero.string_of_int (Z.to_int z).

Definition padStart2 (t : string) : string :=
  if (String.length t <? 2)%nat then String "0" t else t.

(** [x % 60]: the remainder has the sign of the dividend. *)
Definition js_rem60 (x : Q) : Q :=
  let quotient := x / 60 in
  let truncated := if Qle_bool 0 x then Qfloor quotient else Qceiling quotient in
  x - 60 * inject_Z truncated.

Definition formatTime (seconds : jsnum) : string :=
  match seconds with
  | NaN => "0:00"
  | PosInf => "Infinity:NaN"
  | NegInf => "-Infinity:NaN"
  | Fin x =>
      let mins := Qfloor (x / 60) in
      let secs := Qfloor (js_rem60 x) in
      (string_of_Z mins ++ ":" ++ padStart2 (string_of_Z secs))%string
  end.

(** *** Platform operations *)

(** [if (onProgressUpdate) onProgressUpdate(v)]. *)
Definition report (listener : bool) (v : jsnum) (s : State) : State :=
  if listener then set_reported (v :: reported s) s else s.

(** [source.stop()]: the node falls silent; its [ended] event follows. *)
Definition stopSource (id : nat) (s : State) : State :=
  set_sources
    (map (fun n => if (node_id n =? id)%nat
                   then mkSourceNode (node_id n) (node_onended n) true else n)
         (sources s)) s.

(** [cancelAnimationFrame(id)]. *)
Definition cancelAnimationFrame (id : nat) (s : State) : State :=
  set_frames (filter (fun f => negb (fst f =? id)%nat) (frames s)) s.

(** [animationFrameRef.current = requestAnimationFrame(callback)]. *)
Definition requestAnimationFrame (callback : Capture) (s : State) : State :=
  let id := nextFrame s in
  set_animationFrameRef (Some id)
    (set_nextFrame (S id) (set_frames (frames s ++ [(id, callback)]) s)).

(** *** The component's functions *)

Definition stopAudio (resetOffset : bool) (s : State) : State :=
  let s :=
    match sourceNodeRef s with
    | Some id => set_sourceNodeRef None (stopSource id s)
    | None => s
    end in
  let s :=
    match animationFrameRef s with
    | Some id => if (id =? 0)%nat then s else cancelAnimationFrame id s
    | None => s
    end in
  let s := setIsPlaying false s in
  if resetOffset then
    report (onProgressUpdate s) (Fin 0)
      (setCurrentTimeDisplay "0:00" (set_offsetRef 0 (setProgress (Fin 0) s)))
  else s.

(** [!base64Audio]: [null] and the empty string are falsy. *)
Definition present (audio : option string) : bool :=
  match audio with
  | Some EmptyString => false
  | Some _ => true
  | None => false
  end.

(** [loadAudio()]; an error of the decoding is caught and logged. *)
Definition loadAudio (s : State) : State :=
  match base64Audio s with
  | Some base64 =>
      if present (Some base64) then
        let s := set_audioContextRef true s in
        match Base64.decodeBase64 base64 with
        | Throw _ => s
        | Ok bytes =>
            match decodeAudioData bytes default_sampleRate default_numChannels with
            | Throw _ => s
            | Ok buffer =>
                setDurationDisplay (formatTime (Fin (duration buffer)))
                  (set_audioBufferRef (Some buffer) s)
            end
        end
      else s
  | None => s
  end.

(** The effect on [base64Audio], run when the prop receives [audio]. *)
Definition resetForLoad (audio : option string) (s : State) : State :=
  set_audioBufferRef None (stopAudio true (set_base64Audio audio s)).

Definition audioEffect (audio : option string) (s : State) : State :=
  let s := resetForLoad audio s in
  if present audio then loadAudio s else s.

(** [offsetRef.current + (now - startTimeRef.current) * speed]. *)
Definition position (speed now : Q) (s : State) : Q :=
  offsetRef s + (now - startTimeRef s) * speed.

Definition clamp (x duration : Q) : Q := Qmax 0 (Qmin x duration).

(** [playFromOffset(startOffset)]; [now] is the context's clock when the
    source is started. The closures capture the render of the caller. *)
Definition playFromOffset (startOffset now : Q) (s : State) : State :=
  if negb (present (base64Audio s)) then s
  else
    let render := s in
    let s := set_audioContextRef true s in
    let s := match audioBufferRef s with None => loadAudio s | Some _ => s end in
    match audioBufferRef s with
    | None => s
    | Some buffer =>
        let duration := duration buffer in
        let clampedOffset := clamp startOffset duration in
        let s := set_offsetRef clampedOffset s in
        let s := match sourceNodeRef s with Some id => stopSource id s | None => s end in
        let closure := mkCapture (isPlaying render) (playbackSpeed render) duration
                                 (onProgressUpdate render) in
        let source := mkSourceNode (nextSource s) closure false in
        let s := set_startTimeRef now s in
        let s := set_nextSource (S (node_id source)) (set_sources (sources s ++ [source]) s) in
        let s := set_sourceNodeRef (Some (node_id source)) s in
        let s := setIsPlaying true s in
        requestAnimationFrame closure s
    end.

(** The handler [source.onended]. *)
Definition onended (c : Capture) (now : Q) (s : State) : State :=
  if negb (audioContextRef s) then s
  else
    let currentPos := position (cap_playbackSpeed c) now s in
    if Qle_bool (cap_duration c - 2 / 10) currentPos then
      report (cap_onProgressUpdate c) (Fin 100)
        (setCurrentTimeDisplay (formatTime (Fin (cap_duration c)))
           (setProgress (Fin 100) (setIsPlaying false s)))
    else s.

(** The frame callback [updateProgress]. *)
Definition updateProgress (c : Capture) (now : Q) (s : State) : State :=
  if negb (audioContextRef s) || negb (cap_isPlaying c) then s
  else
    let currentPos := position (cap_playbackSpeed c) now s in
    let newProgress := js_min (js_times100 (jsdiv currentPos (cap_duration c))) 100 in
    let s := setProgress newProgress s in
    let s := setCurrentTimeDisplay (formatTime (Fin (Qmin currentPos (cap_duration c)))) s in
    let s := report (cap_onProgressUpdate c) newProgress s in
    if js_ltb newProgress (Fin 100) then requestAnimationFrame c s else s.

(** [handleTogglePlay()]. With no context, reading the clock of
    [audioContextRef.current!] throws and the handler stops there. *)
Definition handleTogglePlay (now : Q) (s : State) : State :=
  if isPlaying s then
    if audioContextRef s then
      stopAudio false (set_offsetRef (position (playbackSpeed s) now s) s)
    else s
  else playFromOffset (offsetRef s) now s.

(** [handleSkip(seconds)]. With no context, reading the clock of
    [audioContextRef.current!] throws and the handler stops there. *)
Definition handleSkip (seconds now : Q) (s : State) : State :=
  match audioBufferRef s with
  | None => s
  | Some buffer =>
      if isPlaying s && negb (audioContextRef s) then s
      else
        let currentPos :=
          if isPlaying s then position (playbackSpeed s) now s else offsetRef s in
        let newPos := clamp (currentPos + seconds) (duration buffer) in
        if isPlaying s then playFromOffset newPos now s
        else
          let prog := js_times100 (jsdiv newPos (duration buffer)) in
          report (onProgressUpdate s) prog
            (setCurrentTimeDisplay (formatTime (Fin newPos))
               (setProgress prog (set_offsetRef newPos s)))
  end.

(** [handleProgressBarClick(e)]; [ratio] is [x / rect.width] for the click
    [e], a finite number since the bar that receives the click has a width. *)
Definition handleProgressBarClick (ratio now : Q) (s : State) : State :=
  match audioBufferRef s with
  | None => s
  | Some buffer =>
      let clickedProgress := Qmax 0 (Qmin ratio 1) in
      let newOffset := clickedProgress * duration buffer in
      if isPlaying s then playFromOffset newOffset now s
      else
        report (onProgressUpdate s) (Fin (clickedProgress * 100))
          (setCurrentTimeDisplay (formatTime (Fin newOffset))
             (setProgress (Fin (clickedProgress * 100)) (set_offsetRef newOffset s)))
  end.

(** *** Events delivered by the platform *)

(** The animation frame [id] runs its callback. *)
Definition runFrame (id : nat) (now : Q) (s : State) : State :=
  match find (fun f => (fst f =? id)%nat) (frames s) with
  | Some (_, callback) => updateProgress callback now (cancelAnimationFrame id s)
  | None => s
  end.

(** The [ended] event of source [id]: playback reached the end of the buffer,
    or [stop()] had been called. *)
Definition sourceEnded (id : nat) (now : Q) (s : State) : State :=
  match find (fun n => (node_id n =? id)%nat) (sources s) with
  | Some n =>
      onended (node_onended n) now
        (set_sources (filter (fun m => negb (node_id m =? id)%nat) (sources s)) s)
  | None => s
  end.

(** A source that sounds: started and not stopped. *)
Definition sounding (s : State) : list SourceNode :=
  filter (fun n => negb (node_stopped n)) (sources s).

Inductive Event : Type :=
| LoadAudio (audio : option string)
| TogglePlay (now : Q)
| Skip (seconds now : Q)
| Seek (ratio now : Q)
| SetSpeed (speed : Q)
| Frame (id : nat) (now : Q)
| Ended (id : nat) (now : Q).

Definition step (e : Event) (s : State) : State :=
  match e with
  | LoadAudio audio => audioEffect audio s
  | TogglePlay now => handleTogglePlay now s
  | Skip seconds now => handleSkip seconds now s
  | Seek ratio now => handleProgressBarClick ratio now s
  | SetSpeed speed => setPlaybackSpeed speed s
  | Frame id now => runFrame id now s
  | Ended id now => sourceEnded id now s
  end.

Definition run (events : list Event) (s : State) : State :=
  fold_left (fun s e => step e s) events s.


(** The states of a mounted player. *)
Inductive reachable : State -> Prop :=
| reachable_init audio listener : reachable (init audio listener)
| reachable_step e s : reachable s -> reachable (step e s).


(** Every source that still sounds is the one held by [sourceNodeRef]. *)
Definition sources_tracked (s : State) : Prop :=
  forall n, In n (sources s) -> node_stopped n = false ->
            sourceNodeRef s = Some (node_id n).


(** *** Notions used to state the properties of the engine *)

(** [await decodeAudioData(decodeBase64(base64Audio), ctx)]: the decoding
    that the [try] of [loadAudio] performs. *)
Definition decodeClip (base64 : string) : Result AudioBuffer :=
  match Base64.decodeBase64 base64 with
  | Throw e => Throw e
  | Ok bytes => decodeAudioData bytes default_sampleRate default_numChannels
  end.

(** The position that [handleSkip] starts from: the true position while the
    player is playing, the stored offset otherwise. *)
Definition currentPos (now : Q) (s : State) : Q :=
  if isPlaying s then position (playbackSpeed s) now s else offsetRef s.

Definition frameEvent (e : Event) : Prop :=
  match e with
  | Frame _ _ => True
  | _ => False
  end.

(** The events other than the arrival of a new [base64Audio]. *)
Definition keepsAudio (e : Event) : Prop :=
  match e with
  | LoadAudio _ => False
  | _ => True
  end.






(** *** Sample data: three seconds of silence *)

Fixpoint base64Zeros (n : nat) : string :=
  match n with
  | O => EmptyString
  | S k => String "A" (base64Zeros k)
  end.

Definition silenceFrames : nat := 72 * 1000.

(** The base64 text of [2 * silenceFrames] zero bytes. *)
Definition silence : string := base64Zeros (4 * (48 * 1000)).

Definition silentBuffer : AudioBuffer :=
  mkAudioBuffer [repeat (Fin (0 # 32768)) silenceFrames] silenceFrames default_sampleRate.

(** The player mounted with [silence] and a listener, once the clip is
    decoded. *)
Definition loadedSilence : State :=
  mkState (Some silence) true false (Fin 0) 1 "0:00" "0:03"
          true None (Some silentBuffer) 0 0 None [] [] 1%nat 1%nat [Fin 0].

(** A click on play at time 0. *)
Definition playingSilence : State := run [TogglePlay 0] loadedSilence.

(** Two skips back while the clip plays, at 1 s and at 2 s, with the frames
    and the [ended] events that the platform delivers in between. *)
Definition skippedTwice : State :=
  run [Frame 1 (1 # 60);
       Skip (-10) 1; Ended 1 1; Frame 2 (61 # 60);
       Skip (-10) 2; Ended 2 2]
      playingSilence.

End Player.

(** * types and App: scenario data, session controller, word lookup and
      turn synchroniser *)

Module App.

Local Open Scope string_scope.

Inductive Level : Type := Beginner | Intermediate | Advanced.
Inductive Topic : Type := JobInterview | WorkDaily | Casual.
Inductive Duration : Type := OneMinute | ThreeMinutes | FiveMinutes.
Inductive Role : Type := interviewer | candidate | manager | peer | friend.
Inductive Voice : Type := Kore | Puck.

Record DialogueTurn : Type := mkDialogueTurn {
  speaker : string;
  text : string;
  persianText : string;
  role : Role
}.

Record VocabularyItem : Type := mkVocabularyItem {
  word : string;
  partOfSpeech : string;
  englishMeaning : string;
  persianMeaning : string;
  isCustom : option bool
}.

Record Participant : Type := mkParticipant {
  name : string;
  participantRole : string;
  voice : Voice
}.

Record Scenario : Type := mkScenario {
  id : string;
  title : string;
  context : string;
  participants : list Participant;
  dialogue : list DialogueTurn;
  vocabulary : list VocabularyItem
}.

Inductive AppStatus : Type :=
| IDLE
| SELECTING_LEVEL
| GENERATING_TEXT
| GENERATING_AUDIO
| READY
| ERROR.

(** Calls to the external service. *)
Inductive Request : Type :=
| GenerateScenario (level : Level) (topic : Topic) (duration : Duration) (goal : string)
| GenerateAudio (scenario : Scenario) (slowMode : bool)
| GetWordDefinition (word context : string).

(** A call of [startPractice] suspended at one of its [await]s. *)
Inductive Pipeline : Type :=
| AwaitScenario (useSlow : bool)
| AwaitAudio.

Record State : Type := mkState {
  status : AppStatus;
  selectedLevel : Level;
  selectedTopic : Topic;
  selectedDuration : Duration;
  scenario : option Scenario;
  audioData : option string;
  error : option string;
  playbackProgress : jsnum;
  customVocab : list VocabularyItem;
  isSlowMode : bool;
  isLookingUp : bool;
  (* suspended calls of [startPractice], oldest first *)
  pipelines : list Pipeline;
  (* the clean word of each suspended [handleWordClick] *)
  lookups : list string;
  (* requests issued so far, latest first *)
  requests : list Request
}.

Definition setStatus v s :=
  mkState v (selectedLevel s) (selectedTopic s) (selectedDuration s) (scenario s)
    (audioData s) (error s) (playbackProgress s) (customVocab s) (isSlowMode s)
    (isLookingUp s) (pipelines s) (lookups s) (requests s).

Definition setSelectedLevel v s :=
  mkState (status s) v (selectedTopic s) (selectedDuration s) (scenario s) (audioData s)
    (error s) (playbackProgress s) (customVocab s) (isSlowMode s) (isLookingUp s)
    (pipelines s) (lookups s) (requests s).

Definition setSelectedTopic v s :=
  mkState (status s) (selectedLevel s) v (selectedDuration s) (scenario s) (audioData s)
    (error s) (playbackProgress s) (customVocab s) (isSlowMode s) (isLookingUp s)
    (pipelines s) (lookups s) (requests s).

Definition setSelectedDuration v s :=
  mkState (status s) (selectedLevel s) (selectedTopic s) v (scenario s) (audioData s)
    (error s) (playbackProgress s) (customVocab s) (isSlowMode s) (isLookingUp s)
    (pipelines s) (lookups s) (requests s).

Definition setScenario v s :=
  mkState (status s) (selectedLevel s) (selectedTopic s) (selectedDuration s) v
    (audioData s) (error s) (playbackProgress s) (customVocab s) (isSlowMode s)
    (isLookingUp s) (pipelines s) (lookups s) (requests s).

Definition setAudioData v s :=
  mkState (status s) (selectedLevel s) (selectedTopic s) (selectedDuration s)
    (scenario s) v (error s) (playbackProgress s) (customVocab s) (isSlowMode s)
    (isLookingUp s) (pipelines s) (lookups s) (requests s).

Definition setError v s :=
  mkState (status s) (selectedLevel s) (selectedTopic s) (selectedDuration s)
    (scenario s) (audioData s) v (playbackProgress s) (customVocab s) (isSlowMode s)
    (isLookingUp s) (pipelines s) (lookups s) (requests s).

Definition setPlaybackProgress v s :=
  mkState (status s) (selectedLevel s) (selectedTopic s) (selectedDuration s)
    (scenario s) (audioData s) (error s) v (customVocab s) (isSlowMode s)
    (isLookingUp s) (pipelines s) (lookups s) (requests s).

Definition setCustomVocab v s :=
  mkState (status s) (selectedLevel s) (selectedTopic s) (selectedDuration s)
    (scenario s) (audioData s) (error s) (playbackProgress s) v (isSlowMode s)
    (isLookingUp s) (pipelines s) (lookups s) (requests s).

Definition setIsSlowMode v s :=
  mkState (status s) (selectedLevel s) (selectedTopic s) (selectedDuration s)
    (scenario s) (audioData s) (error s) (playbackProgress s) (customVocab s) v
    (isLookingUp s) (pipelines s) (lookups s) (requests s).

Definition setIsLookingUp v s :=
  mkState (status s) (selectedLevel s) (selectedTopic s) (selectedDuration s)
    (scenario s) (audioData s) (error s) (playbackProgress s) (customVocab s)
    (isSlowMode s) v (pipelines s) (lookups s) (requests s).

Definition set_pipelines v s :=
  mkState (status s) (selectedLevel s) (selectedTopic s) (selectedDuration s)
    (scenario s) (audioData s) (error s) (playbackProgress s) (customVocab s)
    (isSlowMode s) (isLookingUp s) v (lookups s) (requests s).

Definition set_lookups v s :=
  mkState (status s) (selectedLevel s) (selectedTopic s) (selectedDuration s)
    (scenario s) (audioData s) (error s) (playbackProgress s) (customVocab s)
    (isSlowMode s) (isLookingUp s) (pipelines s) v (requests s).

Definition set_requests v s :=
  mkState (status s) (selectedLevel s) (selectedTopic s) (selectedDuration s)
    (scenario s) (audioData s) (error s) (playbackProgress s) (customVocab s)
    (isSlowMode s) (isLookingUp s) (pipelines s) (lookups s) v.

Definition init : State :=
  mkState IDLE Intermediate JobInterview OneMinute None None None (Fin 0) [] false false
          [] [] [].

Definition issue (r : Request) (s : State) : State := set_requests (r :: requests s) s.
Definition suspend (p : Pipeline) (s : State) : State := set_pipelines (pipelines s ++ [p]) s.

Definition failureMessage : string := "Failed to create session. Please try again.".
Definition goal : string := "Frontend Team Lead / Junior Developer".

(** *** [startPractice] *)

(** The [catch] clause. *)
Definition practiceFailed (s : State) : State :=
  setStatus ERROR (setError (Some failureMessage) s).

(** [startPractice(overrideSlowMode)] up to its first [await]. [render] is
    the state of the render that created the function: [scenario],
    [isSlowMode] and the selections are read from it. *)
Definition startPractice (render : State) (overrideSlowMode : option bool) (s : State) : State :=
  let useSlow :=
    match overrideSlowMode with Some v => v | None => isSlowMode render end in
  let s := setPlaybackProgress (Fin 0) (setAudioData None (setError None s)) in
  match scenario render with
  | None =>
      let s := setStatus GENERATING_TEXT s in
      suspend (AwaitScenario useSlow)
        (issue (GenerateScenario (selectedLevel render) (selectedTopic render)
                                 (selectedDuration render) goal) s)
  | Some current =>
      let s := setStatus GENERATING_AUDIO s in
      suspend AwaitAudio (issue (GenerateAudio current useSlow) s)
  end.

(** [generateAudio] throws when the response carries no audio. *)
Definition audioOfResponse (data : option string) : Result string :=
  match data with
  | Some (String c rest) => Ok (String c rest)
  | _ => Throw ServiceError
  end.

Fixpoint remove_nth {A : Type} (k : nat) (l : list A) : list A :=
  match l, k with
  | [], _ => []
  | _ :: t, O => t
  | h :: t, S j => h :: remove_nth j t
  end.

(** The suspended call number [k] resumes after [await generateScenario]:
    the request has produced [newScenario], or it has failed. *)
Definition scenarioSettled (k : nat) (outcome : Result Scenario) (s : State) : State :=
  match nth_error (pipelines s) k with
  | Some (AwaitScenario useSlow) =>
      let s := set_pipelines (remove_nth k (pipelines s)) s in
      match outcome with
      | Ok newScenario =>
          let s := setScenario (Some newScenario) s in
          let s := setStatus GENERATING_AUDIO s in
          suspend AwaitAudio (issue (GenerateAudio newScenario useSlow) s)
      | Throw _ => practiceFailed s
      end
  | _ => s
  end.

(** The suspended call number [k] resumes after [await generateAudio]: the
    service has answered with the audio payload [data] of its response, if
    any, or the request has failed. *)
Definition audioSettled (k : nat) (outcome : Result (option string)) (s : State) : State :=
  match nth_error (pipelines s) k with
  | Some AwaitAudio =>
      let s := set_pipelines (remove_nth k (pipelines s)) s in
      match outcome with
      | Ok data =>
          match audioOfResponse data with
          | Ok base64Audio => setStatus READY (setAudioData (Some base64Audio) s)
          | Throw _ => practiceFailed s
          end
      | Throw _ => practiceFailed s
      end
  | _ => s
  end.

(** One call of [startPractice] followed to its end, the requests it awaits
    being settled with the given outcomes. *)
Definition practice (render : State) (overrideSlowMode : option bool)
    (scenarioOutcome : Result Scenario) (audioOutcome : Result (option string))
    (s : State) : State :=
  let k := List.length (pipelines s) in
  let s := startPractice render overrideSlowMode s in
  match scenario render with
  | None =>
      match scenarioOutcome with
      | Ok _ => audioSettled k audioOutcome (scenarioSettled k scenarioOutcome s)
      | Throw _ => scenarioSettled k scenarioOutcome s
      end
  | Some _ => audioSettled k audioOutcome s
  end.



Definition toggleSlowMode (s : State) : State :=
  let next := negb (isSlowMode s) in
  let render := s in
  let s := setIsSlowMode next s in
  match scenario render with
  | Some _ => startPractice render (Some next) s
  | None => s
  end.

(** *** The controls that start a generation, as rendered *)

Definition generating (s : State) : bool :=
  match status s with
  | GENERATING_TEXT | GENERATING_AUDIO => true
  | _ => false
  end.

Inductive Trigger : Type :=
| BeginSession
| Generate
| SlowModeButton.

(** - "Begin Session" is rendered in the IDLE view; its [onClick] is
      [startPractice] itself, which so receives the click event, an object,
      as [overrideSlowMode].
    - "Generate" is disabled while a generation runs; its [onClick] is
      [setScenario(null); startPractice()].
    - The slow-mode button belongs to the player, rendered whenever a
      scenario is present; its [onClick] is [toggleSlowMode]. *)
Definition click (t : Trigger) (s : State) : State :=
  match t with
  | BeginSession =>
      match status s with
      | IDLE => startPractice s (Some true) s
      | _ => s
      end
  | Generate =>
      if generating s then s
      else startPractice s None (setScenario None s)
  | SlowModeButton =>
      match scenario s with
      | Some _ => toggleSlowMode s
      | None => s
      end
  end.

(** *** [handleWordClick] *)

(** The characters of the class [[.,\/#!$%\^&\*;:{}=\-_`~()]]. *)
Definition punctuation : list ascii :=
  list_ascii_of_string ".,/#!$%^&*;:{}=-_`~()".

Definition is_punctuation (c : ascii) : bool :=
  existsb (fun p => Ascii.eqb p c) punctuation.

(** [word.replace(/[...]/g, "")]. *)
Fixpoint stripPunctuation (w : string) : string :=
  match w with
  | EmptyString => EmptyString
  | String c rest =>
      if is_punctuation c then stripPunctuation rest
      else String c (stripPunctuation rest)
  end.

(** [toLowerCase] on one code unit below 256: the letters A-Z and the
    capital letters of Latin-1 (U+00C0 to U+00DE, the sign U+00D7 apart). *)
Definition lower (c : ascii) : ascii :=
  let n := nat_of_ascii c in
  if ((65 <=? n)%nat && (n <=? 90)%nat)
     || ((192 <=? n)%nat && (n <=? 222)%nat && negb (n =? 215)%nat)
  then ascii_of_nat (n + 32) else c.

Fixpoint toLowerCase (w : string) : string :=
  match w with
  | EmptyString => EmptyString
  | String c rest => String (lower c) (toLowerCase rest)
  end.

(** [handleWordClick(word, context)] up to its [await]. *)
Definition handleWordClick (word context : string) (s : State) : State :=
  let cleanWord := stripPunctuation word in
  if isLookingUp s || String.eqb cleanWord "" then s
  else
    let s := setIsLookingUp true s in
    set_lookups (lookups s ++ [cleanWord]) (issue (GetWordDefinition cleanWord context) s).

(** The rest of [handleWordClick], once the definition has arrived or the
    request has failed. *)
Definition wordDefined (outcome : Result VocabularyItem) (s : State) : State :=
  match lookups s with
  | [] => s
  | cleanWord :: rest =>
      let s := set_lookups rest s in
      let s :=
        match outcome with
        | Ok def =>
            let prev := customVocab s in
            if existsb (fun v => String.eqb (toLowerCase (word v)) (toLowerCase cleanWord)) prev
            then s
            else setCustomVocab
                   (mkVocabularyItem (word def) (partOfSpeech def) (englishMeaning def)
                                     (persianMeaning def) (Some true) :: prev) s
        | Throw _ => s
        end in
      setIsLookingUp false s
  end.

(** *** [toggleTranslation] *)

(** [visibleTranslations], a [Record<number, boolean>]: a key that was never
    written reads [undefined]. *)
Definition Translations : Type := nat -> option bool.

(** [useState({})]. *)
Definition noTranslations : Translations := fun _ => None.

(** Truthiness of [visibleTranslations[idx]], which decides whether the
    Persian text of turn [idx] is rendered. *)
Definition translationVisible (visible : Translations) (idx : nat) : bool :=
  match visible idx with
  | Some true => true
  | _ => false
  end.

(** [setVisibleTranslations(prev => ({ ...prev, [idx]: !prev[idx] }))]. *)
Definition toggleTranslation (idx : nat) (prev : Translations) : Translations :=
  fun key =>
    if (key =? idx)%nat then Some (negb (translationVisible prev idx)) else prev key.

(** *** [activeTurnIndex] *)


Definition ratio (chars totalChars : nat) : jsnum :=
  jsdiv (inject_Z (Z.of_nat chars)) (inject_Z (Z.of_nat totalChars)).




(** *** The turn synchroniser as the specification words it *)






(** *** The events of a session *)

Inductive Event : Type :=
| Click (t : Trigger)
| ScenarioSettled (k : nat) (outcome : Result Scenario)
| AudioSettled (k : nat) (outcome : Result (option string))
| SelectLevel (level : Level)
| SelectTopic (topic : Topic)
| SelectDuration (duration : Duration)
| WordClick (word context : string)
| WordDefined (outcome : Result VocabularyItem)
| ProgressUpdate (progress : jsnum).

Definition step (e : Event) (s : State) : State :=
  match e with
  | Click t => click t s
  | ScenarioSettled k outcome => scenarioSettled k outcome s
  | AudioSettled k outcome => audioSettled k outcome s
  | SelectLevel level => setSelectedLevel level s
  | SelectTopic topic => setSelectedTopic topic s
  | SelectDuration duration => setSelectedDuration duration s
  | WordClick word context => handleWordClick word context s
  | WordDefined outcome => wordDefined outcome s
  | ProgressUpdate progress => setPlaybackProgress progress s
  end.

Definition run (events : list Event) (s : State) : State :=
  fold_left (fun s e => step e s) events s.

(** The states of a session. *)
Inductive reachable : State -> Prop :=
| session_init : reachable init
| session_step e s : reachable s -> reachable (step e s).

(** *** Sample data *)

Definition turnOf (t : string) : DialogueTurn := mkDialogueTurn "Sam" t "" peer.

(** Three turns of 10, 20 and 10 characters. *)
Definition threeTurns : Scenario :=
  mkScenario "x7k2p9q1a" "Stand-up" "A daily meeting."
    [mkParticipant "Sam" "peer" Kore]
    [turnOf "Morning..."; turnOf "Did the build pass?."; turnOf "Yes it did"]
    [].

(** A session whose scenario has arrived and whose audio is awaited. *)
Definition awaitingAudio : State :=
  scenarioSettled 0 (Ok threeTurns) (click BeginSession init).

(** A first session, started with "Begin Session", whose two requests have
    succeeded. *)
Definition readySession : State :=
  run [Click BeginSession; ScenarioSettled 0 (Ok threeTurns);
       AudioSettled 0 (Ok (Some "AAD/fwCA"))] init.

End App.

(** * Properties of the PCM decoder *)

Module PcmFacts.

Import Pcm.

Lemma int16_view_length (data : list byte) :
  List.length (int16_view data) = (List.length data / 2)%nat.
Proof.
  assert (H : forall n (d : list byte), (List.length d <= n)%nat ->
            List.length (int16_view d) = (List.length d / 2)%nat).
  { induction n as [|n IH]; intros d Hd.
    - destruct d; [reflexivity | simpl in Hd; lia].
    - destruct d as [|lo [|hi rest]]; try reflexivity.
      cbn [int16_view List.length].
      rewrite IH by (simpl in Hd; lia).
      change (S (S (List.length rest))) with (1 * 2 + List.length rest)%nat.
      rewrite Nat.div_add_l by lia. lia. }
  apply (H (List.length data)). lia.
Qed.

Lemma int16_view_nth (data : list byte) (k : nat) :
  (2 * k + 1 < List.length data)%nat ->
  exists v, nth_error (int16_view data) k = Some v /\ le_int16 data k = Some v
            /\ -32768 <= v <= 32767.
Proof.
  revert data. induction k as [|k IH]; intros data Hk.
  - destruct data as [|lo [|hi rest]]; try (simpl in Hk; lia).
    exists (int16_of_bytes lo hi). split; [reflexivity|]. split.
    + unfold le_int16, int16_of_bytes. cbn [nth_error Nat.mul Nat.add].
      change (2 ^ 8) with 256. change (2 ^ 15) with 32768. change (2 ^ 16) with 65536.
      replace (Z.of_N (Byte.to_N hi) * 256) with (256 * Z.of_N (Byte.to_N hi)) by lia.
      reflexivity.
    + unfold int16_of_bytes.
      pose proof (Byte.to_N_bounded lo). pose proof (Byte.to_N_bounded hi).
      destruct (Z.ltb_spec (Z.of_N (Byte.to_N lo) + 256 * Z.of_N (Byte.to_N hi)) 32768); lia.
  - destruct data as [|lo [|hi rest]]; try (simpl in Hk; lia).
    destruct (IH rest) as (v & Hv & Hle & Hr); [simpl in Hk; lia|].
    exists v. split; [exact Hv|]. split; [|exact Hr].
    unfold le_int16 in *.
    replace (2 * S k)%nat with (S (S (2 * k))) by lia.
    replace (S (S (2 * k)) + 1)%nat with (S (S (2 * k + 1))) by lia.
    exact Hle.
Qed.

Lemma store_length (i : nat) (v : jsnum) (a : list jsnum) :
  List.length (store i v a) = List.length a.
Proof.
  revert i; induction a as [|h t IH]; intros [|i]; simpl; auto.
Qed.

Lemma store_nth (i j : nat) (v : jsnum) (a : list jsnum) :
  nth_error (store i v a) j =
  if (j =? i)%nat && (j <? List.length a)%nat then Some v else nth_error a j.
Proof.
  revert i j; induction a as [|h t IH]; intros [|i] [|j]; simpl; auto;
    try (rewrite andb_false_r; reflexivity); try (rewrite IH; reflexivity).
Qed.

(** The inner loop run for [n] iterations writes exactly the first [n]
    cells that exist. *)
Lemma fill_loop_nth (f : nat -> jsnum) (n : nat) (cd : list jsnum) (j : nat) :
  nth_error (fold_left (fun a i => store i (f i) a) (seq 0 n) cd) j =
  if (j <? n)%nat && (j <? List.length cd)%nat then Some (f j) else nth_error cd j.
Proof.
  induction n as [|n IH].
  - reflexivity.
  - rewrite seq_S, fold_left_app. cbn [fold_left Nat.add].
    rewrite store_nth, IH.
    assert (Hlen : List.length (fold_left (fun a i => store i (f i) a) (seq 0 n) cd)
                   = List.length cd).
    { clear. generalize (seq 0 n) cd. intros l; induction l as [|x l IHl]; intros c0.
      - reflexivity.
      - cbn [fold_left]. rewrite IHl. apply store_length. }
    rewrite Hlen.
    destruct (Nat.eqb_spec j n) as [->|Hne].
    + destruct (Nat.ltb_spec n (List.length cd)).
      * replace (n <? S n)%nat with true by (symmetry; apply Nat.ltb_lt; lia). reflexivity.
      * rewrite !andb_false_r. reflexivity.
    + cbn [andb].
      replace (j <? S n)%nat with (j <? n)%nat; [reflexivity|].
      destruct (Nat.ltb_spec j n), (Nat.ltb_spec j (S n)); try reflexivity; lia.
Qed.

Lemma fill_channel_nth dataInt16 numChannels channel frameCount cd j :
  nth_error (fill_channel dataInt16 numChannels channel frameCount cd) j =
  if (j <? iterations frameCount)%nat && (j <? List.length cd)%nat
  then Some (sample_at dataInt16 (j * numChannels + channel))
  else nth_error cd j.
Proof.
  unfold fill_channel.
  apply (fill_loop_nth (fun i => sample_at dataInt16 (i * numChannels + channel))).
Qed.

Lemma set_channel_length ch cd chs :
  List.length (set_channel ch cd chs) = List.length chs.
Proof.
  revert ch; induction chs as [|h t IH]; intros [|ch]; simpl; auto.
Qed.

Lemma set_channel_nth ch cd chs j :
  nth_error (set_channel ch cd chs) j =
  if (j =? ch)%nat && (j <? List.length chs)%nat then Some cd else nth_error chs j.
Proof.
  revert ch j; induction chs as [|h t IH]; intros [|ch] [|j]; simpl; auto;
    try (rewrite andb_false_r; reflexivity); try (rewrite IH; reflexivity).
Qed.

Lemma Qfloor_div_nat (n c : nat) :
  c <> 0%nat ->
  Qfloor (inject_Z (Z.of_nat n) / inject_Z (Z.of_nat c)) = Z.of_nat n / Z.of_nat c.
Proof.
  intros Hc. destruct c as [|c]; [contradiction|].
  replace (Z.of_nat (S c)) with (Z.pos (Pos.of_succ_nat c)) by lia.
  unfold Qdiv, Qinv, Qmult, inject_Z, Qfloor. cbn [Qnum Qden].
  rewrite Z.mul_1_r, Pos.mul_1_l. reflexivity.
Qed.

Lemma floor_le_ceiling (q : Q) : Qfloor q <= Qceiling q.
Proof.
  rewrite Zle_Qle. apply Qle_trans with q; [apply Qfloor_le | apply Qle_ceiling].
Qed.

Lemma inject_nat_nonzero (c : nat) :
  c <> 0%nat -> Qeq_bool (inject_Z (Z.of_nat c)) 0 = false.
Proof.
  intros Hc. destruct (Qeq_bool (inject_Z (Z.of_nat c)) 0) eqn:E; [|reflexivity].
  apply Qeq_bool_iff in E. unfold Qeq, inject_Z in E. cbn [Qnum Qden] in E. lia.
Qed.

(** After the first [k] channels have been processed, exactly those are
    filled and the others are untouched. *)
Lemma outer_loop_inv dataInt16 numChannels frameCount (b0 : AudioBuffer) (k : nat) :
  let b := fold_left (fill_one dataInt16 numChannels frameCount) (seq 0 k) b0 in
  length b = length b0 /\ sampleRate b = sampleRate b0 /\
  List.length (channels b) = List.length (channels b0) /\
  forall ch,
    nth_error (channels b) ch =
    if (ch <? k)%nat
    then option_map (fill_channel dataInt16 numChannels ch frameCount)
                    (nth_error (channels b0) ch)
    else nth_error (channels b0) ch.
Proof.
  induction k as [|k IH]; cbn zeta.
  - repeat split; reflexivity.
  - rewrite seq_S, fold_left_app. cbn [fold_left Nat.add].
    cbn zeta in IH. destruct IH as (Hl & Hr & Hn & Hch).
    set (b := fold_left (fill_one dataInt16 numChannels frameCount) (seq 0 k) b0) in *.
    unfold fill_one.
    pose proof (Hch k) as Hk. rewrite Nat.ltb_irrefl in Hk.
    destruct (nth_error (channels b) k) as [cd|] eqn:E.
    + cbn [length sampleRate channels]. rewrite set_channel_length.
      repeat split; auto. intros ch. rewrite set_channel_nth, Hch.
      destruct (Nat.eqb_spec ch k) as [->|Hne].
      * assert (Hlt : (k < List.length (channels b))%nat)
          by (apply nth_error_Some; rewrite E; discriminate).
        replace (k <? List.length (channels b))%nat with true
          by (symmetry; apply Nat.ltb_lt; exact Hlt).
        replace (k <? S k)%nat with true by (symmetry; apply Nat.ltb_lt; lia).
        cbn [andb]. rewrite <- Hk. reflexivity.
      * cbn [andb].
        replace (ch <? S k)%nat with (ch <? k)%nat; [reflexivity|].
        destruct (Nat.ltb_spec ch k), (Nat.ltb_spec ch (S k)); try reflexivity; lia.
    + repeat split; auto. intros ch. rewrite Hch.
      destruct (Nat.eqb_spec ch k) as [->|Hne].
      * rewrite Nat.ltb_irrefl.
        replace (k <? S k)%nat with true by (symmetry; apply Nat.ltb_lt; lia).
        rewrite <- Hk. reflexivity.
      * replace (ch <? S k)%nat with (ch <? k)%nat; [reflexivity|].
        destruct (Nat.ltb_spec ch k), (Nat.ltb_spec ch (S k)); try reflexivity; lia.
Qed.

Lemma fill_buffer_spec dataInt16 numChannels frameCount b0 :
  let b := fill_buffer dataInt16 numChannels frameCount b0 in
  length b = length b0 /\ sampleRate b = sampleRate b0 /\
  List.length (channels b) = List.length (channels b0) /\
  forall ch,
    nth_error (channels b) ch =
    if (ch <? numChannels)%nat
    then option_map (fill_channel dataInt16 numChannels ch frameCount)
                    (nth_error (channels b0) ch)
    else nth_error (channels b0) ch.
Proof.
  exact (outer_loop_inv dataInt16 numChannels frameCount b0 numChannels).
Qed.

Lemma nth_error_repeat_if {A : Type} (x : A) (n i : nat) :
  nth_error (repeat x n) i = if (i <? n)%nat then Some x else None.
Proof.
  revert i; induction n as [|n IH]; intros [|i]; simpl; auto.
Qed.

(** The decoder on a stream that holds [frames >= 1] whole frames. *)
Lemma decode_whole_frames (data : list byte) (c : nat) :
  Nat.even (List.length data) = true ->
  (1 <= c)%nat ->
  (c <= List.length data / 2)%nat ->
  exists buf,
    decodeAudioData data default_sampleRate c = Ok buf /\
    numberOfChannels buf = c /\
    length buf = (List.length data / 2 / c)%nat /\
    sampleRate buf = default_sampleRate /\
    (forall ch i, (ch < c)%nat -> (i < length buf)%nat ->
       exists v, le_int16 data (i * c + ch) = Some v /\ -32768 <= v <= 32767 /\
                 getSample buf ch i = Some (Fin (v # 32768))) /\
    (forall ch i, (c <= ch)%nat \/ (length buf <= i)%nat -> getSample buf ch i = None).
Proof.
  intros Heven Hc Hframes.
  set (n := (List.length data / 2)%nat) in *.
  assert (Hn : List.length (int16_view data) = n) by apply int16_view_length.
  assert (Hfl : (1 <= n / c)%nat) by (apply Nat.div_le_lower_bound; lia).
  unfold decodeAudioData, Int16Array. rewrite Heven, Hn.
  unfold jsdiv. rewrite inject_nat_nonzero by lia.
  set (q := (inject_Z (Z.of_nat n) / inject_Z (Z.of_nat c))%Q).
  assert (Hfloor : Z.to_nat (Qfloor q) = (n / c)%nat).
  { unfold q. rewrite Qfloor_div_nat by lia.
    rewrite <- Nat2Z.inj_div. apply Nat2Z.id. }
  unfold createBuffer. cbn [ToUint32]. rewrite Hfloor.
  replace (c =? 0)%nat with false by (symmetry; apply Nat.eqb_neq; lia).
  replace (n / c =? 0)%nat with false by (symmetry; apply Nat.eqb_neq; lia).
  cbn [orb]. change (Qle_bool default_sampleRate 0) with false. cbn iota.
  set (b0 := mkAudioBuffer (repeat (repeat (Fin 0) (n / c)) c) (n / c) default_sampleRate).
  destruct (fill_buffer_spec (int16_view data) c (Fin q) b0) as (Hl & Hrate & Hlen & Hch).
  cbn zeta in *. set (b := fill_buffer (int16_view data) c (Fin q) b0) in *.
  exists b. split; [reflexivity|].
  assert (Hiter : (n / c <= iterations (Fin q))%nat).
  { cbn [iterations]. rewrite <- Hfloor. apply Z2Nat.inj_le.
    - unfold q. rewrite Qfloor_div_nat by lia. apply Z.div_pos; lia.
    - pose proof (floor_le_ceiling q).
      assert (0 <= Qfloor q)
        by (unfold q; rewrite Qfloor_div_nat by lia; apply Z.div_pos; lia).
      lia.
    - apply floor_le_ceiling. }
  assert (Hget : forall ch i,
            getSample b ch i =
            if (ch <? c)%nat && (i <? n / c)%nat
            then Some (sample_at (int16_view data) (i * c + ch)) else None).
  { intros ch i. unfold getSample. rewrite Hch. cbn [b0 channels].
    rewrite nth_error_repeat_if.
    destruct (Nat.ltb_spec ch c); cbn [option_map andb]; [|reflexivity].
    rewrite fill_channel_nth, repeat_length, nth_error_repeat_if.
    destruct (Nat.ltb_spec i (n / c)).
    - replace (i <? iterations (Fin q))%nat with true
        by (symmetry; apply Nat.ltb_lt; lia).
      reflexivity.
    - rewrite andb_false_r. reflexivity. }
  split; [unfold numberOfChannels; rewrite Hlen; cbn [b0 channels]; apply repeat_length|].
  split; [rewrite Hl; reflexivity|].
  split; [rewrite Hrate; reflexivity|].
  split.
  - intros ch i Hch' Hi. rewrite Hl in Hi. cbn [b0 length] in Hi.
    assert (Hidx : (2 * (i * c + ch) + 1 < List.length data)%nat).
    { assert ((i * c + ch < n)%nat).
      { pose proof (Nat.Div0.mul_div_le n c). nia. }
      pose proof (Nat.Div0.mul_div_le (List.length data) 2) as H2. fold n in H2.
      lia. }
    destruct (int16_view_nth data (i * c + ch) Hidx) as (v & Hv & Hle & Hr).
    exists v. split; [exact Hle|]. split; [exact Hr|].
    rewrite Hget.
    replace (ch <? c)%nat with true by (symmetry; apply Nat.ltb_lt; lia).
    replace (i <? n / c)%nat with true by (symmetry; apply Nat.ltb_lt; lia).
    cbn [andb]. unfold sample_at. rewrite Hv. reflexivity.
  - intros ch i Hout. rewrite Hl in Hout. cbn [b0 length] in Hout. rewrite Hget.
    destruct Hout as [Hout|Hout].
    + replace (ch <? c)%nat with false by (symmetry; apply Nat.ltb_ge; lia). reflexivity.
    + replace (i <? n / c)%nat with false by (symmetry; apply Nat.ltb_ge; lia).
      rewrite andb_false_r. reflexivity.
Qed.

(** The decoder on a stream of whole 16-bit samples that holds less than
    one frame: the context refuses a buffer of zero frames. *)
Lemma decode_no_frame (data : list byte) (c : nat) :
  Nat.even (List.length data) = true ->
  (1 <= c)%nat ->
  (List.length data / 2 < c)%nat ->
  decodeAudioData data default_sampleRate c = Throw NotSupportedError.
Proof.
  intros Heven Hc Hshort.
  unfold decodeAudioData, Int16Array. rewrite Heven, int16_view_length.
  unfold jsdiv. rewrite inject_nat_nonzero by lia.
  unfold createBuffer. cbn [ToUint32]. rewrite Qfloor_div_nat by lia.
  rewrite <- Nat2Z.inj_div, Nat2Z.id, Nat.div_small by lia.
  rewrite Nat.eqb_refl, orb_true_r. reflexivity.
Qed.

Lemma decode_odd_length (data : list byte) (rate : Q) (c : nat) :
  Nat.even (List.length data) = false ->
  decodeAudioData data rate c = Throw RangeError.
Proof.
  intros Hodd. unfold decodeAudioData, Int16Array. rewrite Hodd. reflexivity.
Qed.

(** C1, as stated, at the empty stream: its length is even and one channel
    is asked for, yet no buffer is produced, because the audio context
    refuses to create a buffer of zero frames. *)
Lemma decode_empty_stream_rejected :
  Nat.even (List.length (@nil byte)) = true /\
  decodeAudioData [] default_sampleRate default_numChannels = Throw NotSupportedError /\
  forall buf, decodeAudioData [] default_sampleRate default_numChannels <> Ok buf.
Proof.
  split; [reflexivity|]. split; [reflexivity|]. intros buf H. discriminate H.
Qed.

(** C1 (amended): for every byte stream of even length that holds at least
    one whole frame of [c >= 1] channels, [decodeAudioData] produces a
    buffer of [c] channels and [byteLength/2/c] frames (integer quotient);
    sample [i] of channel [ch] is the little-endian signed 16-bit integer of
    byte pair [i*c+ch] divided by 32768; every sample of the buffer is a
    finite number of [-1, 1]. *)
Theorem decodeAudioData_frames_and_samples (data : list byte) (c : nat) :
  Nat.even (List.length data) = true ->
  (1 <= c)%nat ->
  (c <= List.length data / 2)%nat ->
  exists buf,
    decodeAudioData data default_sampleRate c = Ok buf /\
    numberOfChannels buf = c /\
    length buf = (List.length data / 2 / c)%nat /\
    (forall ch i, (ch < c)%nat -> (i < length buf)%nat ->
       exists v, le_int16 data (i * c + ch) = Some v /\
                 getSample buf ch i = Some (Fin (v # 32768))) /\
    (forall ch i x, getSample buf ch i = Some x -> in_unit_range x).
Proof.
  intros Heven Hc Hframes.
  destruct (decode_whole_frames data c Heven Hc Hframes)
    as (buf & Hdec & Hnc & Hlen & _ & Hin & Hout).
  exists buf. repeat split; auto.
  - intros ch i Hch Hi. destruct (Hin ch i Hch Hi) as (v & Hle & _ & Hget).
    exists v. split; assumption.
  - intros ch i x Hx.
    destruct (Nat.lt_ge_cases ch c) as [Hch|Hch];
      [|rewrite (Hout ch i) in Hx by (left; exact Hch); discriminate].
    destruct (Nat.lt_ge_cases i (length buf)) as [Hi|Hi];
      [|rewrite (Hout ch i) in Hx by (right; exact Hi); discriminate].
    destruct (Hin ch i Hch Hi) as (v & _ & Hr & Hget).
    rewrite Hget in Hx. injection Hx as <-.
    unfold in_unit_range, Qle. cbn [Qnum Qden]. lia.
Qed.

Lemma decodeAudioData_frames_and_samples_witness :
  exists buf,
    decodeAudioData [x00; x80; xff; x7f; x01; x00; xff; xff]%byte default_sampleRate 2
      = Ok buf /\
    numberOfChannels buf = 2%nat /\
    length buf = 2%nat /\
    (forall ch i, (ch < 2)%nat -> (i < length buf)%nat ->
       exists v, le_int16 [x00; x80; xff; x7f; x01; x00; xff; xff]%byte (i * 2 + ch) = Some v /\
                 getSample buf ch i = Some (Fin (v # 32768))) /\
    (forall ch i x, getSample buf ch i = Some x -> in_unit_range x).
Proof.
  apply (decodeAudioData_frames_and_samples
           [x00; x80; xff; x7f; x01; x00; xff; xff]%byte 2).
  - reflexivity.
  - lia.
  - vm_compute. lia.
Defined.

(** C5, as stated, at six bytes for two channels: the length is not a
    multiple of [2*channels = 4], yet a buffer of one frame is produced and
    the third sample is dropped. *)
Lemma decode_partial_frame_truncated :
  (List.length [x00; x80; xff; x7f; x01; x00]%byte mod (2 * 2) <> 0)%nat /\
  decodeAudioData [x00; x80; xff; x7f; x01; x00]%byte default_sampleRate 2 =
  Ok (mkAudioBuffer [[Fin (-32768 # 32768)]; [Fin (32767 # 32768)]] 1 default_sampleRate).
Proof.
  split; [vm_compute; discriminate | reflexivity].
Qed.

(** C5 (amended): for a byte sequence whose length is not a multiple of
    [2*channels], decoding fails with a [RangeError] when the length is odd
    and with a [NotSupportedError] when it holds less than one whole frame;
    otherwise a buffer of [byteLength/2/channels] frames (integer quotient)
    is produced, which leaves the samples of the final partial frame out. *)
Theorem decodeAudioData_partial_frame (data : list byte) (c : nat) :
  (1 <= c)%nat ->
  (List.length data mod (2 * c) <> 0)%nat ->
  (Nat.even (List.length data) = false ->
     decodeAudioData data default_sampleRate c = Throw RangeError) /\
  (Nat.even (List.length data) = true -> (List.length data / 2 < c)%nat ->
     decodeAudioData data default_sampleRate c = Throw NotSupportedError) /\
  (Nat.even (List.length data) = true -> (c <= List.length data / 2)%nat ->
     exists buf,
       decodeAudioData data default_sampleRate c = Ok buf /\
       length buf = (List.length data / 2 / c)%nat /\
       (length buf * c < List.length data / 2)%nat).
Proof.
  intros Hc Hmod. split; [apply decode_odd_length|].
  split; [intros Heven Hshort; apply decode_no_frame; assumption|].
  intros Heven Hframes.
  destruct (decode_whole_frames data c Heven Hc Hframes)
    as (buf & Hdec & _ & Hlen & _).
  exists buf. split; [exact Hdec|]. split; [exact Hlen|].
  rewrite Hlen.
  apply Nat.even_spec in Heven. destruct Heven as [n Hn].
  rewrite Hn in *. 
  replace (2 * n / 2)%nat with n in * by (rewrite Nat.mul_comm, Nat.div_mul; lia).
  rewrite Nat.Div0.mul_mod_distr_l in Hmod.
  pose proof (Nat.div_mod_eq n c). nia.
Qed.

Lemma decodeAudioData_partial_frame_witness :
  exists buf,
    decodeAudioData [x00; x80; xff; x7f; x01; x00]%byte default_sampleRate 2 = Ok buf /\
    length buf = 1%nat /\
    (length buf * 2 < 3)%nat.
Proof.
  destruct (decodeAudioData_partial_frame [x00; x80; xff; x7f; x01; x00]%byte 2)
    as (_ & _ & H).
  - lia.
  - vm_compute. discriminate.
  - apply H.
    + reflexivity.
    + vm_compute. lia.
Defined.

(** A buffer that the decoder produces has at least one frame and a
    positive rate, hence a positive duration. *)
Lemma decode_positive_duration (data : list byte) (rate : Q) (c : nat) (b : AudioBuffer) :
  decodeAudioData data rate c = Ok b -> (0 < duration b)%Q.
Proof.
  unfold decodeAudioData. destruct (Int16Array data) as [d16|e]; [|discriminate].
  set (fc := jsdiv _ _). unfold createBuffer.
  destruct ((c =? 0)%nat || (ToUint32 fc =? 0)%nat || Qle_bool rate 0) eqn:E; [discriminate|].
  intros H. injection H as <-.
  destruct (fill_buffer_spec d16 c fc
              (mkAudioBuffer (repeat (repeat (Fin 0) (ToUint32 fc)) c) (ToUint32 fc) rate))
    as (Hl & Hr & _).
  cbn zeta in Hl, Hr. unfold duration. rewrite Hl, Hr. cbn [length sampleRate].
  apply orb_false_iff in E. destruct E as [E Erate].
  apply orb_false_iff in E. destruct E as [_ En].
  apply Nat.eqb_neq in En.
  assert (Hrate : (0 < rate)%Q).
  { apply Qnot_le_lt. intros Hle. apply Qle_bool_iff in Hle. congruence. }
  apply Qlt_shift_div_l; [exact Hrate|]. rewrite Qmult_0_l.
  unfold Qlt, inject_Z. cbn [Qnum Qden]. lia.
Qed.

End PcmFacts.

(** * Properties of the base64 decoder *)

Module Base64Facts.

Import Base64.
Local Open Scope N_scope.

(** A property of sextets checked on each of the 64 values. *)
Lemma each_sextet (P : N -> bool) :
  forallb P (map N.of_nat (seq 0 64)) = true -> forall n, n < 64 -> P n = true.
Proof.
  intros Hall n Hn. rewrite forallb_forall in Hall. apply Hall.
  apply in_map_iff. exists (N.to_nat n). split; [lia|].
  apply in_seq. lia.
Qed.

Lemma alphabet_spec (n : N) :
  n < 64 ->
  sextet (alphabet n) = Some n /\ is_pad (alphabet n) = false /\
  is_ascii_whitespace (alphabet n) = false.
Proof.
  intros Hn.
  pose proof (each_sextet
    (fun n => match sextet (alphabet n) with Some m => m =? n | None => false end
              && negb (is_pad (alphabet n)) && negb (is_ascii_whitespace (alphabet n)))
    eq_refl n Hn) as H.
  cbn beta in H. apply andb_true_iff in H. destruct H as [H Hw].
  apply andb_true_iff in H. destruct H as [Hs Hp].
  apply negb_true_iff in Hw, Hp.
  destruct (sextet (alphabet n)) as [m|]; [|discriminate].
  apply N.eqb_eq in Hs. subst m. auto.
Qed.

Lemma strip_padding_cons (c : ascii) (l : list ascii) :
  is_pad c = false -> strip_padding (c :: l) = c :: strip_padding l.
Proof.
  intros Hc. destruct l as [|y [|z l]]; cbn [strip_padding]; rewrite ?Hc; try reflexivity.
  destruct (is_pad y); reflexivity.
Qed.

Lemma strip_padding_In (c : ascii) (l : list ascii) :
  is_pad c = false -> In c l -> In c (strip_padding l).
Proof.
  intros Hc. induction l as [|x l IH]; [intros []|].
  destruct l as [|y [|z l]].
  - intros [->|[]]. cbn [strip_padding]. rewrite Hc. left. reflexivity.
  - cbn [strip_padding]. intros [->|[->|[]]].
    + destruct (is_pad y); [rewrite Hc|]; left; reflexivity.
    + rewrite Hc. right. left. reflexivity.
  - intros [->|Hin].
    + left. reflexivity.
    + right. apply IH. exact Hin.
Qed.

Lemma sextets_foreign (c : ascii) (l : list ascii) :
  In c l -> sextet c = None -> sextets l = None.
Proof.
  intros Hin Hc. induction l as [|x l IH]; [contradiction|].
  cbn [sextets]. destruct Hin as [->|Hin].
  - rewrite Hc. reflexivity.
  - rewrite (IH Hin). destruct (sextet x); reflexivity.
Qed.

Ltac euclid a d :=
  pose proof (N.div_mod a d ltac:(discriminate));
  pose proof (N.mod_lt a d ltac:(discriminate)).

(** The three octets of a full group come back from its four sextets. *)
Lemma full_group (a b c : N) :
  a < 256 -> b < 256 -> c < 256 ->
  let n := (a / 4) * 262144 + ((a mod 4) * 16 + b / 16) * 4096
           + ((b mod 16) * 4 + c / 64) * 64 + c mod 64 in
  n / 65536 = a /\ (n / 256) mod 256 = b /\ n mod 256 = c.
Proof.
  intros Ha Hb Hc. cbn zeta.
  euclid a 4.
  euclid b 16.
  euclid c 64.
  set (a1 := a / 4) in *. set (a0 := a mod 4) in *.
  set (b1 := b / 16) in *. set (b0 := b mod 16) in *.
  set (c1 := c / 64) in *. set (c0 := c mod 64) in *.
  replace (a1 * 262144 + (a0 * 16 + b1) * 4096 + (b0 * 4 + c1) * 64 + c0)
    with (a * 65536 + b * 256 + c) by lia.
  split; [|split].
  - symmetry. apply N.div_unique with (r := b * 256 + c); lia.
  - replace ((a * 65536 + b * 256 + c) / 256) with (a * 256 + b)
      by (apply N.div_unique with (r := c); lia).
    symmetry. apply N.mod_unique with (q := a); lia.
  - symmetry. apply N.mod_unique with (q := a * 256 + b); lia.
Qed.

Lemma last_two (a b : N) :
  a < 256 -> b < 256 ->
  let n := (a / 4) * 4096 + ((a mod 4) * 16 + b / 16) * 64 + (b mod 16) * 4 in
  n / 1024 = a /\ (n / 4) mod 256 = b.
Proof.
  intros Ha Hb. cbn zeta.
  euclid a 4.
  euclid b 16.
  set (a1 := a / 4) in *. set (a0 := a mod 4) in *.
  set (b1 := b / 16) in *. set (b0 := b mod 16) in *.
  replace (a1 * 4096 + (a0 * 16 + b1) * 64 + b0 * 4) with (a * 1024 + b * 4) by lia.
  split.
  - symmetry. apply N.div_unique with (r := b * 4); lia.
  - replace ((a * 1024 + b * 4) / 4) with (a * 256 + b)
      by (apply N.div_unique with (r := 0); lia).
    symmetry. apply N.mod_unique with (q := a); lia.
Qed.

Lemma last_one (a : N) :
  a < 256 -> ((a / 4) * 64 + (a mod 4) * 16) / 16 = a.
Proof.
  intros Ha.
  euclid a 4.
  set (a1 := a / 4) in *. set (a0 := a mod 4) in *.
  symmetry. apply N.div_unique with (r := 0); lia.
Qed.

Lemma sextet_bounds (a b c : N) :
  a < 256 -> b < 256 -> c < 256 ->
  a / 4 < 64 /\ (a mod 4) * 16 + b / 16 < 64 /\ (b mod 16) * 4 + c / 64 < 64 /\
  c mod 64 < 64 /\ (a mod 4) * 16 < 64 /\ (b mod 16) * 4 < 64.
Proof.
  intros Ha Hb Hc.
  euclid a 4.
  euclid b 16.
  euclid c 64.
  set (a1 := a / 4) in *. set (a0 := a mod 4) in *.
  set (b1 := b / 16) in *. set (b0 := b mod 16) in *.
  set (c1 := c / 64) in *. set (c0 := c mod 64) in *.
  repeat match goal with |- _ /\ _ => split end; lia.
Qed.

Lemma by_groups_of_three {A : Type} (P : list A -> Prop) :
  P [] -> (forall a, P [a]) -> (forall a b, P [a; b]) ->
  (forall a b c l, P l -> P (a :: b :: c :: l)) ->
  forall l, P l.
Proof.
  intros H0 H1 H2 H3.
  assert (H : forall n l, (List.length l <= n)%nat -> P l).
  { induction n as [|n IH]; intros l Hl.
    - destruct l; [exact H0 | simpl in Hl; lia].
    - destruct l as [|a [|b [|c l]]]; auto.
      apply H3. apply IH. simpl in Hl. lia. }
  intros l. apply (H (List.length l)). lia.
Qed.

(** What [atob] computes on the encoding of a list of octets. *)
Lemma decode_encoded_octets (l : list N) :
  Forall (fun x => x < 256) l ->
  exists (vs : list N) (k j r : nat),
    Forall (fun c => is_ascii_whitespace c = false) (encode_octets l) /\
    List.length (encode_octets l) = (4 * k)%nat /\
    List.length (strip_padding (encode_octets l)) = (4 * j + r)%nat /\
    (r = 0 \/ r = 2 \/ r = 3)%nat /\
    sextets (strip_padding (encode_octets l)) = Some vs /\
    bytes_of_sextets vs = l.
Proof.
  induction l as [|a|a b|a b c l IH] using by_groups_of_three; intros Hl.
  - exists [], 0%nat, 0%nat, 0%nat.
    repeat match goal with |- _ /\ _ => split end; auto.
  - inversion Hl as [|? ? Ha _]; subst.
    destruct (sextet_bounds a 0 0 Ha) as (B1 & _ & _ & _ & B5 & _); try lia.
    destruct (alphabet_spec _ B1) as (S1 & P1 & W1).
    destruct (alphabet_spec _ B5) as (S2 & P2 & W2).
    exists [a / 4; (a mod 4) * 16], 1%nat, 0%nat, 2%nat.
    cbn [encode_octets]. rewrite !strip_padding_cons by assumption.
    cbn [strip_padding]. change (is_pad "=") with true. cbn iota.
    cbn [sextets]. rewrite S1, S2.
    repeat match goal with |- _ /\ _ => split end;
      [repeat constructor; auto | reflexivity | reflexivity | auto | reflexivity |].
    cbn [bytes_of_sextets]. rewrite last_one by exact Ha. reflexivity.
  - inversion Hl as [|? ? Ha Hl']; subst. inversion Hl' as [|? ? Hb _]; subst.
    destruct (sextet_bounds a b 0 Ha Hb) as (B1 & B2 & _ & _ & _ & B6); try lia.
    destruct (alphabet_spec _ B1) as (S1 & P1 & W1).
    destruct (alphabet_spec _ B2) as (S2 & P2 & W2).
    destruct (alphabet_spec _ B6) as (S3 & P3 & W3).
    exists [a / 4; (a mod 4) * 16 + b / 16; (b mod 16) * 4], 1%nat, 0%nat, 3%nat.
    cbn [encode_octets]. rewrite !strip_padding_cons by assumption.
    cbn [strip_padding]. change (is_pad "=") with true. cbn iota.
    cbn [sextets]. rewrite S1, S2, S3.
    repeat match goal with |- _ /\ _ => split end;
      [repeat constructor; auto | reflexivity | reflexivity | auto | reflexivity |].
    cbn [bytes_of_sextets].
    destruct (last_two a b Ha Hb) as [E1 E2]. cbn zeta in E1, E2.
    rewrite E1, E2. reflexivity.
  - inversion Hl as [|? ? Ha Hl']; subst. inversion Hl' as [|? ? Hb Hl'']; subst.
    inversion Hl'' as [|? ? Hc Hrest]; subst.
    destruct (IH Hrest) as (vs & k & j & r & Hw & Hlen & Hstrip & Hr & Hs & Hbytes).
    destruct (sextet_bounds a b c Ha Hb Hc) as (B1 & B2 & B3 & B4 & _ & _).
    destruct (alphabet_spec _ B1) as (S1 & P1 & W1).
    destruct (alphabet_spec _ B2) as (S2 & P2 & W2).
    destruct (alphabet_spec _ B3) as (S3 & P3 & W3).
    destruct (alphabet_spec _ B4) as (S4 & P4 & W4).
    exists (a / 4 :: (a mod 4) * 16 + b / 16 :: (b mod 16) * 4 + c / 64 :: c mod 64 :: vs),
           (S k), (S j), r.
    cbn [encode_octets]. rewrite !strip_padding_cons by assumption.
    cbn [sextets List.length]. rewrite S1, S2, S3, S4, Hs, Hlen, Hstrip.
    repeat match goal with |- _ /\ _ => split end;
      [repeat constructor; auto | lia | lia | exact Hr | reflexivity |].
    cbn [bytes_of_sextets].
    destruct (full_group a b c Ha Hb Hc) as (E1 & E2 & E3). cbn zeta in E1, E2, E3.
    rewrite E1, E2, E3, Hbytes. reflexivity.
Qed.

Lemma filter_all {A : Type} (f : A -> bool) (l : list A) :
  Forall (fun x => f x = true) l -> filter f l = l.
Proof.
  induction 1 as [|x l Hx _ IH]; [reflexivity|]. cbn [filter]. rewrite Hx, IH. reflexivity.
Qed.

Lemma length_mod_4 (j r : nat) :
  (r < 4)%nat -> N.of_nat (4 * j + r) mod 4 = N.of_nat r.
Proof.
  intros Hr. replace (N.of_nat (4 * j + r)) with (N.of_nat r + N.of_nat j * 4) by lia.
  rewrite N.Div0.mod_add. apply N.mod_small. lia.
Qed.

(** X1: [decodeBase64] inverts the standard base64 encoding: for every
    sequence of bytes, decoding its padded RFC 4648 encoding gives the
    sequence back. *)
Theorem decodeBase64_encodeBase64 (bytes : list byte) :
  decodeBase64 (encodeBase64 bytes) = Ok bytes.
Proof.
  assert (Hl : Forall (fun x => x < 256) (map Byte.to_N bytes)).
  { apply Forall_forall. intros x Hx. apply in_map_iff in Hx.
    destruct Hx as (b & <- & _). pose proof (Byte.to_N_bounded b). lia. }
  destruct (decode_encoded_octets _ Hl) as (vs & k & j & r & Hw & Hlen & Hstrip & Hr & Hs & Hb).
  unfold decodeBase64, atob, encodeBase64.
  rewrite list_ascii_of_string_of_list_ascii.
  rewrite filter_all
    by (eapply Forall_impl; [|exact Hw]; intros c Hc; cbn beta; rewrite Hc; reflexivity).
  rewrite Hlen. replace (4 * k)%nat with (4 * k + 0)%nat by lia.
  rewrite length_mod_4 by lia. cbn [N.of_nat N.eqb].
  rewrite Hstrip, length_mod_4 by lia.
  replace (N.of_nat r =? 1) with false by (symmetry; apply N.eqb_neq; lia).
  rewrite Hs, Hb, list_ascii_of_string_of_list_ascii, !map_map.
  f_equal. transitivity (map (fun b : byte => b) bytes); [|apply map_id].
  apply map_ext. intros b.
  rewrite <- ascii_of_byte_via_N. apply byte_of_ascii_of_byte.
Qed.

(** X2: a text that holds a character which is neither of the base64
    alphabet, nor ASCII whitespace, nor the padding sign is refused:
    [decodeBase64] throws the [InvalidCharacterError] of [atob]. *)
Theorem decodeBase64_rejects_foreign_character (base64 : string) (c : ascii) :
  In c (list_ascii_of_string base64) ->
  sextet c = None ->
  is_ascii_whitespace c = false ->
  is_pad c = false ->
  decodeBase64 base64 = Throw InvalidCharacterError.
Proof.
  intros Hin Hc Hw Hp. unfold decodeBase64, atob.
  set (data := filter (fun c => negb (is_ascii_whitespace c)) (list_ascii_of_string base64)).
  assert (Hdata : In c data) by (apply filter_In; rewrite Hw; auto).
  set (data' := if N.of_nat (List.length data) mod 4 =? 0 then strip_padding data else data).
  assert (Hdata' : In c data').
  { unfold data'. destruct (_ =? 0); [apply strip_padding_In|]; assumption. }
  destruct (N.of_nat (List.length data') mod 4 =? 1); [reflexivity|].
  rewrite (sextets_foreign c data' Hdata' Hc). reflexivity.
Qed.

Lemma decodeBase64_rejects_foreign_character_witness :
  decodeBase64 "AAA!" = Throw InvalidCharacterError.
Proof.
  apply (decodeBase64_rejects_foreign_character "AAA!" "!"%char).
  - cbn. auto.
  - reflexivity.
  - reflexivity.
  - reflexivity.
Defined.

End Base64Facts.

(** * The sample clip *)

Module SilenceFacts.

Import Pcm Base64 Player.















End SilenceFacts.

(** * Properties of the playback engine *)

Module PlayerFacts.

Import Pcm Player.
Local Open Scope Q_scope.

(** Splits a conjunction of facts about a concrete trace and settles each by
    evaluation. *)
Ltac conjuncts := repeat match goal with |- _ /\ _ => split end.
Ltac evaluate := lazy; first [reflexivity | discriminate].

Ltac destruct_state s :=
  destruct s as [b64 listener playing prog speed ctd dd ctx src buf start off raf
                 srcs frs ns nf rep].

(** *** What each function leaves alone *)

Lemma stopAudio_keeps resetOffset s :
  let s' := stopAudio resetOffset s in
  base64Audio s' = base64Audio s /\ onProgressUpdate s' = onProgressUpdate s /\
  playbackSpeed s' = playbackSpeed s /\ audioContextRef s' = audioContextRef s /\
  audioBufferRef s' = audioBufferRef s /\ startTimeRef s' = startTimeRef s /\
  isPlaying s' = false /\ sourceNodeRef s' = None /\
  offsetRef s' = (if resetOffset then 0 else offsetRef s) /\
  progress s' = (if resetOffset then Fin 0 else progress s) /\
  reported s' = (if resetOffset && onProgressUpdate s
                 then Fin 0 :: reported s else reported s).
Proof.
  destruct_state s. unfold stopAudio. cbn.
  destruct src as [id|], raf as [[|fid]|], resetOffset, listener; cbn;
    repeat split; reflexivity.
Qed.

Lemma loadAudio_keeps s :
  let s' := loadAudio s in
  base64Audio s' = base64Audio s /\ onProgressUpdate s' = onProgressUpdate s /\
  isPlaying s' = isPlaying s /\ progress s' = progress s /\
  playbackSpeed s' = playbackSpeed s /\ sourceNodeRef s' = sourceNodeRef s /\
  startTimeRef s' = startTimeRef s /\ offsetRef s' = offsetRef s /\
  animationFrameRef s' = animationFrameRef s /\ sources s' = sources s /\
  frames s' = frames s /\ nextFrame s' = nextFrame s /\ reported s' = reported s /\
  (audioContextRef s = true -> audioContextRef s' = true) /\
  (audioBufferRef s <> None -> audioBufferRef s' <> None).
Proof.
  destruct_state s. unfold loadAudio. cbn.
  destruct b64 as [[|c rest]|]; cbn; try (repeat split; auto; fail).
  destruct (Base64.decodeBase64 (String c rest)) as [bytes|e]; cbn;
    try (repeat split; auto; fail).
  destruct (decodeAudioData bytes default_sampleRate default_numChannels) as [b|e]; cbn;
    repeat split; auto; discriminate.
Qed.


Lemma updateProgress_keeps c now s :
  let s' := updateProgress c now s in
  base64Audio s' = base64Audio s /\ isPlaying s' = isPlaying s /\
  playbackSpeed s' = playbackSpeed s /\ audioContextRef s' = audioContextRef s /\
  sourceNodeRef s' = sourceNodeRef s /\ audioBufferRef s' = audioBufferRef s /\
  startTimeRef s' = startTimeRef s /\ offsetRef s' = offsetRef s /\
  sources s' = sources s.
Proof.
  unfold updateProgress.
  destruct (negb (audioContextRef s) || negb (cap_isPlaying c)); [repeat split; reflexivity|].
  destruct_state s. cbn.
  destruct (cap_onProgressUpdate c); cbn;
    destruct (js_ltb _ _); cbn; repeat split; reflexivity.
Qed.

Lemma onended_keeps c now s :
  let s' := onended c now s in
  base64Audio s' = base64Audio s /\
  playbackSpeed s' = playbackSpeed s /\ audioContextRef s' = audioContextRef s /\
  sourceNodeRef s' = sourceNodeRef s /\ audioBufferRef s' = audioBufferRef s /\
  startTimeRef s' = startTimeRef s /\ offsetRef s' = offsetRef s /\
  animationFrameRef s' = animationFrameRef s /\
  sources s' = sources s /\ frames s' = frames s /\
  (isPlaying s' = true -> isPlaying s = true).
Proof.
  unfold onended.
  destruct (negb (audioContextRef s)); [repeat split; auto|].
  destruct (Qle_bool _ _); [|repeat split; auto].
  destruct_state s. cbn.
  destruct (cap_onProgressUpdate c); cbn; repeat split; auto; discriminate.
Qed.


(** *** Pause and resume *)

Lemma clamp_inside (x d : Q) : 0 <= x <= d -> clamp x d == x.
Proof.
  intros [H0 Hd]. unfold clamp.
  rewrite (Q.min_l x d) by exact Hd. apply Q.max_r. exact H0.
Qed.






(** *** End of track *)




(** *** The progress reporter *)




(** *** Loading new audio *)

Lemma stopSource_stops (id : nat) (srcs : list SourceNode) (n : SourceNode) :
  (forall m, In m srcs -> node_stopped m = false -> id = node_id m) ->
  In n (map (fun m => if (node_id m =? id)%nat
                      then mkSourceNode (node_id m) (node_onended m) true else m) srcs) ->
  node_stopped n = true.
Proof.
  intros Hall Hin. apply in_map_iff in Hin. destruct Hin as (m & <- & Hm).
  destruct (Nat.eqb_spec (node_id m) id) as [E|E]; [reflexivity|].
  destruct (node_stopped m) eqn:St; [reflexivity|].
  exfalso. apply E. symmetry. apply Hall; assumption.
Qed.

Lemma stopAudio_silences resetOffset s :
  sources_tracked s ->
  forall n, In n (sources (stopAudio resetOffset s)) -> node_stopped n = true.
Proof.
  intros Htr n. destruct_state s. unfold stopAudio, sources_tracked in *. cbn in *.
  destruct src as [id|].
  - intros Hin.
    assert (Hin' : In n (map (fun m => if (node_id m =? id)%nat
                        then mkSourceNode (node_id m) (node_onended m) true else m) srcs)).
    { destruct raf as [[|fid]|], resetOffset, listener; cbn in Hin; exact Hin. }
    apply (stopSource_stops id srcs n); [|exact Hin'].
    intros m Hm St. specialize (Htr m Hm St). congruence.
  - intros Hin.
    assert (Hin' : In n srcs).
    { destruct raf as [[|fid]|], resetOffset, listener; cbn in Hin; exact Hin. }
    destruct (node_stopped n) eqn:St; [reflexivity|].
    specialize (Htr n Hin' St). discriminate.
Qed.

Lemma loadAudio_sources s :
  sources (loadAudio s) = sources s /\ sourceNodeRef (loadAudio s) = sourceNodeRef s.
Proof.
  pose proof (loadAudio_keeps s) as K. cbn zeta in K.
  destruct K as (_ & _ & _ & _ & _ & K6 & _ & _ & _ & K10 & _). split; assumption.
Qed.

Lemma playFromOffset_tracked startOffset now s :
  sources_tracked s -> sources_tracked (playFromOffset startOffset now s).
Proof.
  intros Htr. unfold playFromOffset.
  destruct (negb (present (base64Audio s))); [exact Htr|].
  set (s1 := match audioBufferRef (set_audioContextRef true s) with
             | Some _ => set_audioContextRef true s
             | None => loadAudio (set_audioContextRef true s)
             end).
  assert (H1 : sources s1 = sources s /\ sourceNodeRef s1 = sourceNodeRef s).
  { unfold s1. destruct (audioBufferRef (set_audioContextRef true s)).
    - destruct_state s. split; reflexivity.
    - destruct (loadAudio_sources (set_audioContextRef true s)) as [A B].
      rewrite A, B. destruct_state s. split; reflexivity. }
  destruct H1 as [Hs Hr].
  destruct (audioBufferRef s1) as [buffer|].
  2: { unfold sources_tracked. rewrite Hs, Hr. exact Htr. }
  unfold sources_tracked in *.
  destruct s1 as [b64 listener playing prog speed ctd dd ctx src buf start off raf
                  srcs frs ns nf rep].
  cbn in Hs, Hr. subst srcs src.
  intros n. destruct (sourceNodeRef s) as [id|] eqn:Href; cbn.
  - rewrite in_app_iff. intros [Hin|[<-|[]]] St; [|reflexivity].
    exfalso.
    assert (node_stopped n = true); [|congruence].
    apply (stopSource_stops id (sources s) n); [|exact Hin].
    intros m Hm Stm. specialize (Htr m Hm Stm). congruence.
  - rewrite in_app_iff. intros [Hin|[<-|[]]] St; [|reflexivity].
    specialize (Htr n Hin St). discriminate.
Qed.

Lemma reachable_sources_tracked (s : State) : reachable s -> sources_tracked s.
Proof.
  induction 1 as [audio listener | e s Hr IH].
  - intros n [].
  - destruct e as [audio | now | seconds now | ratio now | newSpeed | id now | id now];
      cbn [step].
    + assert (Hreset : forall n, In n (sources (resetForLoad audio s)) -> node_stopped n = true).
      { intros n Hin. unfold resetForLoad in Hin.
        apply (stopAudio_silences true (set_base64Audio audio s)).
        - destruct_state s. exact IH.
        - destruct (stopAudio true (set_base64Audio audio s)). exact Hin. }
      unfold audioEffect, sources_tracked. destruct (present audio).
      * destruct (loadAudio_sources (resetForLoad audio s)) as [A _]. rewrite A.
        intros n Hin St. rewrite (Hreset n Hin) in St. discriminate.
      * intros n Hin St. rewrite (Hreset n Hin) in St. discriminate.
    + unfold handleTogglePlay. destruct (isPlaying s).
      * destruct (audioContextRef s); [|exact IH].
        intros n Hin St.
        assert (node_stopped n = true); [|congruence].
        apply (stopAudio_silences false
                 (set_offsetRef (position (playbackSpeed s) now s) s)); [|exact Hin].
        destruct_state s. exact IH.
      * apply playFromOffset_tracked. exact IH.
    + unfold handleSkip. destruct (audioBufferRef s); [|exact IH].
      destruct (isPlaying s).
      * destruct (audioContextRef s); cbn [negb andb]; [|exact IH].
        apply playFromOffset_tracked. exact IH.
      * cbn [andb]. destruct_state s. unfold sources_tracked in *. cbn in *.
        destruct listener; exact IH.
    + unfold handleProgressBarClick. destruct (audioBufferRef s); [|exact IH].
      destruct (isPlaying s).
      * apply playFromOffset_tracked. exact IH.
      * destruct_state s. unfold sources_tracked in *. cbn in *.
        destruct listener; exact IH.
    + destruct_state s. exact IH.
    + unfold runFrame. destruct (find _ (frames s)) as [[fid c]|]; [|exact IH].
      pose proof (updateProgress_keeps c now (cancelAnimationFrame id s)) as K.
      cbn zeta in K. destruct K as (_ & _ & _ & _ & K5 & _ & _ & _ & K9).
      unfold sources_tracked. rewrite K5, K9. destruct_state s. exact IH.
    + unfold sourceEnded. destruct (find _ (sources s)) as [m|]; [|exact IH].
      set (s1 := set_sources _ s).
      pose proof (onended_keeps (node_onended m) now s1) as K.
      cbn zeta in K. destruct K as (_ & _ & _ & K4 & _ & _ & _ & _ & K9 & _).
      unfold sources_tracked. rewrite K4, K9. unfold s1.
      destruct_state s. unfold sources_tracked in IH. cbn in *.
      intros n Hin St. apply filter_In in Hin. destruct Hin as [Hin _].
      apply IH; assumption.
Qed.

(** What the effect on [base64Audio] does before it decodes: no source
    sounds any more, the frame whose handle the player holds is cancelled,
    the player is stopped at offset 0 with progress 0, the listener is told
    0 and the cached buffer is dropped. *)
Lemma resetForLoad_resets (audio : option string) (s : State) :
  reachable s ->
  let s' := resetForLoad audio s in
  sounding s' = [] /\ sourceNodeRef s' = None /\
  (forall id c, animationFrameRef s = Some id -> id <> 0%nat -> ~ In (id, c) (frames s')) /\
  isPlaying s' = false /\ offsetRef s' = 0 /\ progress s' = Fin 0 /\
  audioBufferRef s' = None /\
  reported s' = (if onProgressUpdate s then Fin 0 :: reported s else reported s).
Proof.
  intros Hreach. cbn zeta.
  assert (Hs : sounding (resetForLoad audio s) = []).
  { unfold sounding.
    assert (Hall : forall n, In n (sources (resetForLoad audio s)) -> node_stopped n = true).
    { intros n Hin. unfold resetForLoad in Hin.
      apply (stopAudio_silences true (set_base64Audio audio s)).
      - pose proof (reachable_sources_tracked s Hreach) as T. destruct_state s. exact T.
      - destruct (stopAudio true (set_base64Audio audio s)). exact Hin. }
    induction (sources (resetForLoad audio s)) as [|n l IHl]; [reflexivity|].
    cbn [filter]. rewrite (Hall n) by (left; reflexivity). cbn [negb].
    apply IHl. intros m Hm. apply Hall. right. exact Hm. }
  split; [exact Hs|]. clear Hs.
  destruct_state s. unfold resetForLoad, stopAudio. cbn.
  destruct src as [sid|], raf as [[|fid]|], listener; cbn; repeat split; auto;
    try (intros id c E; discriminate E);
    try (intros id c E Hne; injection E as <-; try contradiction;
         intros Hin; apply filter_In in Hin; destruct Hin as [_ Hin];
         cbn in Hin; rewrite Nat.eqb_refl in Hin; discriminate Hin).
Qed.

(** C8 at its failing input: the clip plays, the listener skips back twice,
    then new audio arrives. Two reporter loops are alive (frames 3 and 4) and
    the player holds the handle of the second only; the reset cancels frame
    4 and leaves frame 3 pending. When that frame runs after the load, the
    progress leaves 0 and the listener is told 17.2. *)
Lemma load_leaves_a_reporter_loop_running :
  let c := mkCapture true 1 (duration silentBuffer) true in
  let newAudio := Some (base64Zeros 8) in
  let reset := resetForLoad newAudio skippedTwice in
  let loaded := step (LoadAudio newAudio) skippedTwice in
  let later := step (Frame 3 (151 # 60)) loaded in
  isPlaying skippedTwice = true /\
  frames skippedTwice = [(3%nat, c); (4%nat, c)] /\
  animationFrameRef skippedTwice = Some 4%nat /\
  frames reset = [(3%nat, c)] /\
  isPlaying reset = false /\ progress reset = Fin 0 /\ offsetRef reset = 0 /\
  frames loaded = [(3%nat, c)] /\ progress loaded = Fin 0 /\
  option_map length (audioBufferRef loaded) = Some 3%nat /\
  (exists q, progress later = Fin q /\ hd NaN (reported later) = Fin q /\ q == 155 # 9) /\
  frames later = [(5%nat, c)].
Proof.
  cbn zeta. conjuncts; try evaluate.
  eexists. conjuncts; evaluate.
Qed.

(** *** The time label *)







(** *** The normal forms of [loadAudio] and [playFromOffset] *)

Lemma loadAudio_decodes (s : State) (audio : string) :
  base64Audio s = Some audio ->
  present (Some audio) = true ->
  loadAudio s =
  match decodeClip audio with
  | Ok buffer =>
      setDurationDisplay (formatTime (Fin (duration buffer)))
        (set_audioBufferRef (Some buffer) (set_audioContextRef true s))
  | Throw _ => set_audioContextRef true s
  end.
Proof.
  intros Hb Hp. unfold loadAudio, decodeClip. rewrite Hb, Hp.
  destruct (Base64.decodeBase64 audio) as [bytes|e]; [|reflexivity].
  destruct (decodeAudioData bytes default_sampleRate default_numChannels); reflexivity.
Qed.


(** [playFromOffset] on a player whose audio is present and decoded. *)
Lemma playFromOffset_started (startOffset now : Q) (s : State) (buffer : AudioBuffer) :
  present (base64Audio s) = true ->
  audioBufferRef s = Some buffer ->
  playFromOffset startOffset now s =
  let closure := mkCapture (isPlaying s) (playbackSpeed s) (duration buffer)
                           (onProgressUpdate s) in
  mkState (base64Audio s) (onProgressUpdate s) true (progress s) (playbackSpeed s)
    (currentTimeDisplay s) (durationDisplay s) true (Some (nextSource s)) (Some buffer)
    now (clamp startOffset (duration buffer)) (Some (nextFrame s))
    (sources (match sourceNodeRef s with Some id => stopSource id s | None => s end)
       ++ [mkSourceNode (nextSource s) closure false])
    (frames s ++ [(nextFrame s, closure)]) (S (nextSource s)) (S (nextFrame s))
    (reported s).
Proof.
  intros Hp Hb. unfold playFromOffset. rewrite Hp. cbn [negb].
  destruct_state s. cbn in Hb. subst buf. destruct src; reflexivity.
Qed.

Lemma present_some (audio : option string) :
  present audio = true -> exists c rest, audio = Some (String c rest).
Proof.
  destruct audio as [[|c rest]|]; try discriminate. intros _. exists c, rest. reflexivity.
Qed.

(** [playFromOffset] on a player whose audio is present and not decoded
    yet: the clip is decoded first; when that fails, only the context has
    been created. *)
Lemma playFromOffset_uncached (startOffset now : Q) (s : State) (audio : string) :
  base64Audio s = Some audio ->
  present (Some audio) = true ->
  audioBufferRef s = None ->
  playFromOffset startOffset now s =
  match decodeClip audio with
  | Ok buffer =>
      playFromOffset startOffset now
        (setDurationDisplay (formatTime (Fin (duration buffer)))
           (set_audioBufferRef (Some buffer) s))
  | Throw _ => set_audioContextRef true s
  end.
Proof.
  intros Hb Hp Hnone. unfold playFromOffset at 1.
  rewrite Hb, Hp. cbn [negb].
  replace (audioBufferRef (set_audioContextRef true s)) with (@None AudioBuffer)
    by (destruct_state s; cbn in *; congruence).
  rewrite (loadAudio_decodes (set_audioContextRef true s) audio)
    by (try exact Hp; destruct_state s; exact Hb).
  destruct (decodeClip audio) as [buffer|e].
  - destruct (present_some _ Hp) as (c & rest & E). injection E as ->.
    destruct_state s. cbn in Hb, Hnone. subst b64 buf.
    unfold playFromOffset. cbn. destruct src; reflexivity.
  - destruct_state s. cbn in *. subst. reflexivity.
Qed.

(** *** The engine keeps its bookkeeping consistent *)



















(** *** Sources *)
















(** *** The cache *)




(** *** Seeking and skipping *)










(** *** The reporter loop armed by a click on play *)

(** Frame callbacks created in renders where the player was not playing
    return at their guard: they change nothing and request no frame. *)
Lemma stale_frames_do_nothing (ticks : list Event) (s : State) :
  Forall frameEvent ticks ->
  (forall f, In f (frames s) -> cap_isPlaying (snd f) = false) ->
  let s' := run ticks s in
  isPlaying s' = isPlaying s /\ progress s' = progress s /\
  reported s' = reported s /\ currentTimeDisplay s' = currentTimeDisplay s /\
  offsetRef s' = offsetRef s /\ sources s' = sources s /\
  (forall f, In f (frames s') -> In f (frames s)).
Proof.
  intros Hall. revert s. induction Hall as [|e ticks He _ IH]; intros s Hstale.
  - cbn. repeat split; auto.
  - cbn zeta. cbn [run fold_left]. fold (run ticks (step e s)).
    destruct e as [audio | now | seconds now | ratio now | newSpeed | id now | id now];
      try contradiction. cbn [step].
    assert (Hstep : runFrame id now s = s \/ runFrame id now s = cancelAnimationFrame id s).
    { unfold runFrame. destruct (find _ (frames s)) as [[fid c]|] eqn:Hfind; [|left; reflexivity].
      right. apply find_some in Hfind. destruct Hfind as [Hin _].
      specialize (Hstale _ Hin). cbn in Hstale.
      unfold updateProgress. rewrite Hstale. rewrite orb_true_r. reflexivity. }
    assert (Hsame : isPlaying (runFrame id now s) = isPlaying s /\
                    progress (runFrame id now s) = progress s /\
                    reported (runFrame id now s) = reported s /\
                    currentTimeDisplay (runFrame id now s) = currentTimeDisplay s /\
                    offsetRef (runFrame id now s) = offsetRef s /\
                    sources (runFrame id now s) = sources s /\
                    forall f, In f (frames (runFrame id now s)) -> In f (frames s)).
    { destruct Hstep as [E|E]; rewrite E.
      - repeat split; auto.
      - destruct_state s. cbn. repeat split; auto.
        intros f Hf. apply filter_In in Hf. tauto. }
    destruct Hsame as (S1 & S2 & S3 & S4 & S5 & S6 & S7).
    destruct (IH (runFrame id now s)) as (I1 & I2 & I3 & I4 & I5 & I6 & I7).
    { intros f Hf. apply Hstale. apply S7. exact Hf. }
    rewrite I1, I2, I3, I4, I5, I6, S1, S2, S3, S4, S5, S6.
    repeat split; auto.
Qed.

(** X10: the reporter loop that a click on play arms from a paused player
    is created in a render where [isPlaying] is false, so its callback
    returns at once on every tick. When the frames pending at the click come
    from such renders too (none is pending after a load), the clip plays,
    and whatever frames the platform runs, the progress, the time label and
    the listener keep the values they had before the click. *)
Theorem play_click_arms_a_silent_reporter (s : State) (buffer : AudioBuffer) (now : Q)
    (ticks : list Event) :
  isPlaying s = false ->
  present (base64Audio s) = true ->
  audioBufferRef s = Some buffer ->
  (forall f, In f (frames s) -> cap_isPlaying (snd f) = false) ->
  Forall frameEvent ticks ->
  let started := handleTogglePlay now s in
  let s' := run ticks started in
  isPlaying started = true /\
  In (nextFrame s, mkCapture false (playbackSpeed s) (duration buffer) (onProgressUpdate s))
     (frames started) /\
  isPlaying s' = true /\
  progress s' = progress s /\
  reported s' = reported s /\
  currentTimeDisplay s' = currentTimeDisplay s.
Proof.
  intros Hpaused Hp Hb Hstale Hticks. cbn zeta.
  unfold handleTogglePlay. rewrite Hpaused.
  rewrite (playFromOffset_started (offsetRef s) now s buffer Hp Hb). cbn zeta.
  rewrite Hpaused.
  set (started := mkState _ _ _ _ _ _ _ _ _ _ _ _ _ _ _ _ _ _).
  destruct (stale_frames_do_nothing ticks started Hticks) as (I1 & I2 & I3 & I4 & _).
  { unfold started. cbn [frames]. intros f Hf. apply in_app_iff in Hf.
    destruct Hf as [Hf|[<-|[]]]; [apply Hstale; exact Hf | reflexivity]. }
  rewrite I1, I2, I3, I4. unfold started.
  cbn [isPlaying progress reported currentTimeDisplay frames].
  repeat split; try reflexivity.
  apply in_app_iff. right. left. reflexivity.
Qed.

Lemma play_click_arms_a_silent_reporter_witness :
  let started := handleTogglePlay 0 loadedSilence in
  let s' := run [Frame 1 (1 # 60); Frame 2 (1 # 30); Frame 1 1] started in
  isPlaying started = true /\
  In (nextFrame loadedSilence,
      mkCapture false (playbackSpeed loadedSilence) (duration silentBuffer)
                (onProgressUpdate loadedSilence))
     (frames started) /\
  isPlaying s' = true /\
  progress s' = progress loadedSilence /\
  reported s' = reported loadedSilence /\
  currentTimeDisplay s' = currentTimeDisplay loadedSilence.
Proof.
  apply (play_click_arms_a_silent_reporter loadedSilence silentBuffer 0
           [Frame 1 (1 # 60); Frame 2 (1 # 30); Frame 1 1]).
  - reflexivity.
  - reflexivity.
  - reflexivity.
  - intros f [].
  - repeat constructor.
Defined.

(** *** Changing the speed while playing *)



(** *** Pausing *)



(** *** After the end of the clip *)



(** *** Loading *)

(** X14: when the [base64Audio] prop receives a text that decodes to an
    even number of bytes, two at least, the player caches a buffer of one
    channel with one frame per pair of bytes (sample [i] being the
    little-endian 16-bit integer of pair [i] over 32768), whose duration is
    the number of frames over 24000; it shows that duration, and it is
    stopped at offset 0 with progress 0, whatever it was doing before. *)
Theorem new_audio_is_decoded_and_cached (audio : string) (bytes : list byte) (s : State) :
  Base64.decodeBase64 audio = Ok bytes ->
  Nat.even (List.length bytes) = true ->
  (2 <= List.length bytes)%nat ->
  let s' := audioEffect (Some audio) s in
  exists buffer,
    audioBufferRef s' = Some buffer /\
    numberOfChannels buffer = 1%nat /\
    length buffer = (List.length bytes / 2)%nat /\
    duration buffer = inject_Z (Z.of_nat (List.length bytes / 2)) / 24000 /\
    (forall i, (i < length buffer)%nat ->
       exists v, le_int16 bytes i = Some v /\ getSample buffer 0 i = Some (Fin (v # 32768))) /\
    durationDisplay s' = formatTime (Fin (duration buffer)) /\
    base64Audio s' = Some audio /\
    audioContextRef s' = true /\
    isPlaying s' = false /\ sourceNodeRef s' = None /\
    offsetRef s' = 0 /\ progress s' = Fin 0.
Proof.
  intros Hbytes Heven Hlen. cbn zeta.
  assert (Hp : present (Some audio) = true).
  { destruct audio as [|c rest]; [|reflexivity].
    exfalso. cbv in Hbytes. injection Hbytes as <-. cbn in Hlen. lia. }
  assert (Hhalf : (1 <= List.length bytes / 2)%nat)
    by (apply Nat.div_le_lower_bound; lia).
  destruct (PcmFacts.decode_whole_frames bytes 1 Heven (Nat.le_refl 1) Hhalf)
    as (buffer & Hdec & Hnc & Hl & Hrate & Hin & _).
  rewrite Nat.div_1_r in Hl.
  exists buffer.
  unfold audioEffect. rewrite Hp.
  set (r := resetForLoad (Some audio) s).
  pose proof (stopAudio_keeps true (set_base64Audio (Some audio) s)) as K. cbn zeta in K.
  destruct K as (K1 & _ & _ & _ & _ & _ & K7 & K8 & K9 & K10 & _).
  assert (Hr : base64Audio r = Some audio /\ isPlaying r = false /\ sourceNodeRef r = None /\
               offsetRef r = 0 /\ progress r = Fin 0).
  { unfold r, resetForLoad.
    destruct (stopAudio true (set_base64Audio (Some audio) s)). cbn in *.
    rewrite K1. destruct_state s. cbn. auto. }
  destruct Hr as (R1 & R2 & R3 & R4 & R5).
  rewrite (loadAudio_decodes r audio R1 Hp).
  unfold decodeClip. rewrite Hbytes. fold default_numChannels in Hdec. rewrite Hdec.
  destruct r. cbn in *.
  repeat match goal with |- _ /\ _ => split end; auto.
  - unfold duration. rewrite Hl, Hrate. reflexivity.
  - intros i Hi. destruct (Hin 0%nat i) as (v & Hle & _ & Hget); [lia | exact Hi |].
    rewrite Nat.mul_1_r, Nat.add_0_r in Hle. exists v. auto.
Qed.

Lemma new_audio_is_decoded_and_cached_witness :
  let bytes := [x00; x00; xff; x7f; x00; x80]%byte in
  let s' := audioEffect (Some "AAD/fwCA"%string) playingSilence in
  exists buffer,
    audioBufferRef s' = Some buffer /\
    numberOfChannels buffer = 1%nat /\
    length buffer = (List.length bytes / 2)%nat /\
    duration buffer = inject_Z (Z.of_nat (List.length bytes / 2)) / 24000 /\
    (forall i, (i < length buffer)%nat ->
       exists v, le_int16 bytes i = Some v /\ getSample buffer 0 i = Some (Fin (v # 32768))) /\
    durationDisplay s' = formatTime (Fin (duration buffer)) /\
    base64Audio s' = Some "AAD/fwCA"%string /\
    audioContextRef s' = true /\
    isPlaying s' = false /\ sourceNodeRef s' = None /\
    offsetRef s' = 0 /\ progress s' = Fin 0.
Proof.
  apply (new_audio_is_decoded_and_cached "AAD/fwCA" [x00; x00; xff; x7f; x00; x80]%byte
           playingSilence).
  - reflexivity.
  - reflexivity.
  - cbn. lia.
Defined.

(** X15: new audio plays from its start. Whatever the player was doing,
    once a text that decodes to [buffer] has been received, a click on play
    starts a source on [buffer] at offset 0. *)
Theorem new_audio_plays_from_the_start (audio : string) (buffer : AudioBuffer)
    (s : State) (now : Q) :
  decodeClip audio = Ok buffer ->
  let loaded := audioEffect (Some audio) s in
  let playing := handleTogglePlay now loaded in
  isPlaying loaded = false /\
  audioBufferRef loaded = Some buffer /\
  isPlaying playing = true /\
  audioBufferRef playing = Some buffer /\
  sourceNodeRef playing = Some (nextSource loaded) /\
  startTimeRef playing = now /\
  offsetRef playing == 0.
Proof.
  intros Hd. cbn zeta.
  assert (Hp : present (Some audio) = true).
  { destruct audio as [|c rest]; [|reflexivity]. cbv in Hd. discriminate Hd. }
  assert (Hpos : 0 < duration buffer).
  { unfold decodeClip in Hd. destruct (Base64.decodeBase64 audio); [|discriminate].
    exact (PcmFacts.decode_positive_duration _ _ _ _ Hd). }
  unfold audioEffect. rewrite Hp.
  set (r := resetForLoad (Some audio) s).
  pose proof (stopAudio_keeps true (set_base64Audio (Some audio) s)) as K. cbn zeta in K.
  destruct K as (K1 & _ & _ & _ & _ & _ & K7 & _ & K9 & _).
  assert (Hr : base64Audio r = Some audio /\ isPlaying r = false /\ offsetRef r = 0).
  { unfold r, resetForLoad.
    destruct (stopAudio true (set_base64Audio (Some audio) s)). cbn in *.
    rewrite K1. destruct_state s. cbn. auto. }
  destruct Hr as (R1 & R2 & R3).
  rewrite (loadAudio_decodes r audio R1 Hp), Hd.
  set (loaded := setDurationDisplay _ _).
  assert (L : isPlaying loaded = false /\ audioBufferRef loaded = Some buffer /\
              base64Audio loaded = Some audio /\ offsetRef loaded = 0).
  { unfold loaded. destruct r. cbn in *. auto. }
  destruct L as (L1 & L2 & L3 & L4).
  split; [exact L1|]. split; [exact L2|].
  unfold handleTogglePlay. rewrite L1.
  rewrite (playFromOffset_started (offsetRef loaded) now loaded buffer)
    by (try exact L2; rewrite L3; exact Hp).
  rewrite L4. cbn [isPlaying audioBufferRef sourceNodeRef startTimeRef offsetRef].
  repeat split; try reflexivity.
  apply clamp_inside. split; [apply Qle_refl | apply Qlt_le_weak; exact Hpos].
Qed.

Lemma new_audio_plays_from_the_start_witness :
  let buffer := mkAudioBuffer [[Fin (0 # 32768); Fin (32767 # 32768); Fin (-32768 # 32768)]]
                              3 default_sampleRate in
  let loaded := audioEffect (Some "AAD/fwCA"%string) skippedTwice in
  let playing := handleTogglePlay 4 loaded in
  isPlaying loaded = false /\
  audioBufferRef loaded = Some buffer /\
  isPlaying playing = true /\
  audioBufferRef playing = Some buffer /\
  sourceNodeRef playing = Some (nextSource loaded) /\
  startTimeRef playing = 4 /\
  offsetRef playing == 0.
Proof.
  apply (new_audio_plays_from_the_start "AAD/fwCA"
           (mkAudioBuffer [[Fin (0 # 32768); Fin (32767 # 32768); Fin (-32768 # 32768)]]
                          3 default_sampleRate)
           skippedTwice 4).
  reflexivity.
Defined.

(** One event on a player whose audio cannot be decoded. *)
Lemma undecodable_step (audio : string) (e : Error) (ev : Event) (s : State) :
  decodeClip audio = Throw e ->
  keepsAudio ev ->
  base64Audio s = Some audio /\ isPlaying s = false /\ audioBufferRef s = None /\
  sources s = [] /\ frames s = [] /\ progress s = Fin 0 /\ offsetRef s = 0 /\
  currentTimeDisplay s = "0:00"%string /\ durationDisplay s = "0:00"%string ->
  let s' := step ev s in
  base64Audio s' = Some audio /\ isPlaying s' = false /\ audioBufferRef s' = None /\
  sources s' = [] /\ frames s' = [] /\ progress s' = Fin 0 /\ offsetRef s' = 0 /\
  currentTimeDisplay s' = "0:00"%string /\ durationDisplay s' = "0:00"%string.
Proof.
  intros Hd Hev (J1 & J2 & J3 & J4 & J5 & J6 & J7 & J8 & J9). cbn zeta.
  destruct ev as [other | now | seconds now | ratio now | newSpeed | id now | id now];
    try contradiction; cbn [step].
  - unfold handleTogglePlay. rewrite J2.
    destruct (present (base64Audio s)) eqn:Hp.
    + rewrite J1 in Hp. rewrite (playFromOffset_uncached _ _ s audio J1 Hp J3), Hd.
      destruct_state s. cbn in *. repeat split; assumption.
    + unfold playFromOffset. rewrite Hp. repeat split; assumption.
  - unfold handleSkip. rewrite J3. repeat split; assumption.
  - unfold handleProgressBarClick. rewrite J3. repeat split; assumption.
  - destruct_state s. cbn in *. repeat split; assumption.
  - unfold runFrame. rewrite J5. repeat split; assumption.
  - unfold sourceEnded. rewrite J4. repeat split; assumption.
Qed.

(** X16: when the audio given to a freshly mounted player cannot be
    decoded (the text is not base64, or its bytes make no buffer), the
    failure is swallowed and no buffer is cached; whatever the user and the
    platform do afterwards - play, skip, seek, change of speed, frames - the
    player never plays: no source is created, no frame is requested, and the
    progress and both time labels stay at their initial values. *)
Theorem undecodable_audio_never_plays (audio : string) (e : Error)
    (previous : option string) (listener : bool) (events : list Event) :
  decodeClip audio = Throw e ->
  Forall keepsAudio events ->
  let s := run events (audioEffect (Some audio) (init previous listener)) in
  isPlaying s = false /\ audioBufferRef s = None /\
  sources s = [] /\ frames s = [] /\
  progress s = Fin 0 /\ offsetRef s = 0 /\
  currentTimeDisplay s = "0:00"%string /\ durationDisplay s = "0:00"%string.
Proof.
  intros Hd Hall. cbn zeta.
  assert (J : let s := audioEffect (Some audio) (init previous listener) in
              base64Audio s = Some audio /\ isPlaying s = false /\ audioBufferRef s = None /\
              sources s = [] /\ frames s = [] /\ progress s = Fin 0 /\ offsetRef s = 0 /\
              currentTimeDisplay s = "0:00"%string /\ durationDisplay s = "0:00"%string).
  { cbn zeta. unfold audioEffect.
    destruct (present (Some audio)) eqn:Hp.
    - rewrite (loadAudio_decodes _ audio) by (try exact Hp; destruct listener; reflexivity).
      rewrite Hd. destruct listener; cbn; repeat split; reflexivity.
    - destruct listener; cbn; repeat split; reflexivity. }
  cbn zeta in J. revert J. generalize (audioEffect (Some audio) (init previous listener)).
  induction Hall as [|ev events Hev _ IH]; intros s J.
  - cbn. tauto.
  - cbn [run fold_left]. apply IH. exact (undecodable_step audio e ev s Hd Hev J).
Qed.

Lemma undecodable_audio_never_plays_witness :
  let s := run [TogglePlay 0; Skip 10 1; Seek (1 # 2) 2; SetSpeed (1 # 2); TogglePlay 3]
               (audioEffect (Some "AA=="%string) (init None true)) in
  isPlaying s = false /\ audioBufferRef s = None /\
  sources s = [] /\ frames s = [] /\
  progress s = Fin 0 /\ offsetRef s = 0 /\
  currentTimeDisplay s = "0:00"%string /\ durationDisplay s = "0:00"%string.
Proof.
  apply (undecodable_audio_never_plays "AA==" RangeError None true
           [TogglePlay 0; Skip 10 1; Seek (1 # 2) 2; SetSpeed (1 # 2); TogglePlay 3]).
  - reflexivity.
  - repeat constructor.
Defined.

End PlayerFacts.

(** * Properties of the session controller, the word lookup and the turn
      synchroniser *)

Module AppFacts.

Import App.
Local Open Scope string_scope.

(** *** Word lookup *)

(** The words that stripping empties are those made of punctuation only. *)
Lemma stripPunctuation_empty_iff (w : string) :
  stripPunctuation w = "" <-> forallb is_punctuation (list_ascii_of_string w) = true.
Proof.
  induction w as [|c rest IH]; cbn [list_ascii_of_string forallb stripPunctuation].
  - split; reflexivity.
  - destruct (is_punctuation c); cbn [andb].
    + exact IH.
    + split; discriminate.
Qed.

(** C10: for every clicked word that is empty once its punctuation is
    stripped, [handleWordClick] returns at once: the state is unchanged, so
    no request is issued and neither the custom vocabulary nor the
    lookup-in-progress flag moves. *)
Theorem handleWordClick_ignores_punctuation (word context : string) (s : State) :
  stripPunctuation word = "" ->
  handleWordClick word context s = s /\
  requests (handleWordClick word context s) = requests s /\
  lookups (handleWordClick word context s) = lookups s /\
  customVocab (handleWordClick word context s) = customVocab s /\
  isLookingUp (handleWordClick word context s) = isLookingUp s.
Proof.
  intros Hclean.
  assert (H : handleWordClick word context s = s).
  { unfold handleWordClick. rewrite Hclean. cbn [String.eqb]. rewrite orb_true_r. reflexivity. }
  rewrite H. repeat split; reflexivity.
Qed.

Lemma handleWordClick_ignores_punctuation_witness :
  handleWordClick "..." "Morning..." awaitingAudio = awaitingAudio /\
  requests (handleWordClick "..." "Morning..." awaitingAudio) = requests awaitingAudio /\
  lookups (handleWordClick "..." "Morning..." awaitingAudio) = lookups awaitingAudio /\
  customVocab (handleWordClick "..." "Morning..." awaitingAudio) = customVocab awaitingAudio /\
  isLookingUp (handleWordClick "..." "Morning..." awaitingAudio) = isLookingUp awaitingAudio.
Proof.
  apply (handleWordClick_ignores_punctuation "..." "Morning..." awaitingAudio).
  reflexivity.
Defined.

(** *** Failure of a generation *)

Lemma startPractice_effect render overrideSlowMode s :
  let s' := startPractice render overrideSlowMode s in
  scenario s' = scenario s /\ audioData s' = None /\ error s' = None /\
  pipelines s' =
    (pipelines s ++
     [match scenario render with
      | None => AwaitScenario (match overrideSlowMode with
                               | Some v => v | None => isSlowMode render end)
      | Some _ => AwaitAudio
      end])%list.
Proof.
  destruct s. unfold startPractice. cbn.
  destruct (scenario render); cbn; repeat split; reflexivity.
Qed.

Lemma nth_error_last_added {A : Type} (l : list A) (x : A) :
  nth_error (l ++ [x])%list (List.length l) = Some x.
Proof.
  induction l as [|h t IH]; [reflexivity | exact IH].
Qed.

Lemma remove_nth_last_added {A : Type} (l : list A) (x : A) :
  remove_nth (List.length l) (l ++ [x])%list = l.
Proof.
  induction l as [|h t IH]; [reflexivity | cbn; rewrite IH; reflexivity].
Qed.




(** *** Re-entering a generation *)

(** The two buttons that start a session do nothing while a generation
    runs. *)
Lemma start_buttons_inert_while_generating (s : State) :
  generating s = true ->
  click BeginSession s = s /\ click Generate s = s.
Proof.
  intros Hg. unfold click. rewrite Hg.
  unfold generating in Hg. destruct (status s); try discriminate; split; reflexivity.
Qed.

(** C7 at its failing input: the scenario of a first session has arrived and
    its audio is awaited (GENERATING_AUDIO). The slow-mode button of the
    player is rendered and enabled; a click on it flips [isSlowMode], issues
    a second audio request and leaves two calls of [startPractice]
    suspended. *)
Lemma slow_mode_click_restarts_generation :
  let s := awaitingAudio in
  let s' := click SlowModeButton s in
  status s = GENERATING_AUDIO /\ generating s = true /\
  pipelines s = [AwaitAudio] /\
  requests s = [GenerateAudio threeTurns true;
                GenerateScenario Intermediate JobInterview OneMinute goal] /\
  s' <> s /\
  status s' = GENERATING_AUDIO /\
  isSlowMode s = false /\ isSlowMode s' = true /\
  pipelines s' = [AwaitAudio; AwaitAudio] /\
  requests s' = [GenerateAudio threeTurns true;
                 GenerateAudio threeTurns true;
                 GenerateScenario Intermediate JobInterview OneMinute goal].
Proof.
  cbn zeta. repeat split; try (vm_compute; reflexivity).
  intros E. apply (f_equal isSlowMode) in E. vm_compute in E. discriminate E.
Qed.

(** *** The turn synchroniser *)

Local Open Scope Q_scope.










(** *** A generation that succeeds *)

Lemma audioSettled_last (s : State) (outcome : Result (option string)) (p : list Pipeline) :
  pipelines s = (p ++ [AwaitAudio])%list ->
  audioSettled (List.length p) outcome s =
  match outcome with
  | Ok data =>
      match audioOfResponse data with
      | Ok base64Audio => setStatus READY (setAudioData (Some base64Audio) (set_pipelines p s))
      | Throw _ => practiceFailed (set_pipelines p s)
      end
  | Throw _ => practiceFailed (set_pipelines p s)
  end.
Proof.
  intros Hp. unfold audioSettled.
  rewrite Hp, nth_error_last_added, remove_nth_last_added. reflexivity.
Qed.

Lemma scenarioSettled_last (s : State) (outcome : Result Scenario) (p : list Pipeline)
    (useSlow : bool) :
  pipelines s = (p ++ [AwaitScenario useSlow])%list ->
  scenarioSettled (List.length p) outcome s =
  match outcome with
  | Ok newScenario =>
      suspend AwaitAudio
        (issue (GenerateAudio newScenario useSlow)
           (setStatus GENERATING_AUDIO
              (setScenario (Some newScenario) (set_pipelines p s))))
  | Throw _ => practiceFailed (set_pipelines p s)
  end.
Proof.
  intros Hp. unfold scenarioSettled.
  rewrite Hp, nth_error_last_added, remove_nth_last_added. reflexivity.
Qed.

(** X17: a first session whose two requests succeed. The call passes
    through GENERATING_TEXT and GENERATING_AUDIO and ends READY with the new
    scenario and its audio, without error and with the progress at 0; it
    issues the scenario request, made of the selections of the render and the
    fixed background, and then the audio request for the scenario received,
    with the pacing flag of the call. *)
Theorem first_session_succeeds (render s : State) (overrideSlowMode : option bool)
    (newScenario : Scenario) (c : ascii) (rest : string) :
  scenario render = None ->
  let audio := String c rest in
  let useSlow := match overrideSlowMode with Some v => v | None => isSlowMode render end in
  let k := List.length (pipelines s) in
  let started := startPractice render overrideSlowMode s in
  let described := scenarioSettled k (Ok newScenario) started in
  let final := practice render overrideSlowMode (Ok newScenario) (Ok (Some audio)) s in
  status started = GENERATING_TEXT /\
  requests started =
    GenerateScenario (selectedLevel render) (selectedTopic render) (selectedDuration render)
                     "Frontend Team Lead / Junior Developer" :: requests s /\
  status described = GENERATING_AUDIO /\
  scenario described = Some newScenario /\ audioData described = None /\
  requests described = GenerateAudio newScenario useSlow :: requests started /\
  status final = READY /\
  scenario final = Some newScenario /\
  audioData final = Some audio /\
  error final = None /\
  playbackProgress final = Fin 0 /\
  requests final = requests described /\
  pipelines final = pipelines s.
Proof.
  intros Hrender. cbn zeta. unfold practice. rewrite Hrender.
  set (useSlow := match overrideSlowMode with Some v => v | None => isSlowMode render end).
  assert (Hp : pipelines (startPractice render overrideSlowMode s)
               = (pipelines s ++ [AwaitScenario useSlow])%list).
  { destruct (startPractice_effect render overrideSlowMode s) as (_ & _ & _ & K).
    rewrite K, Hrender. reflexivity. }
  rewrite (scenarioSettled_last _ (Ok newScenario) _ _ Hp).
  set (started := startPractice render overrideSlowMode s) in *.
  set (described := suspend AwaitAudio _).
  assert (Hp' : pipelines described = (pipelines s ++ [AwaitAudio])%list).
  { unfold described. destruct started. reflexivity. }
  rewrite (audioSettled_last _ (Ok (Some (String c rest))) _ Hp').
  cbn [audioOfResponse].
  assert (Hs : status started = GENERATING_TEXT /\
               requests started =
                 GenerateScenario (selectedLevel render) (selectedTopic render)
                   (selectedDuration render) "Frontend Team Lead / Junior Developer"
                 :: requests s /\
               error started = None /\ playbackProgress started = Fin 0 /\
               audioData started = None).
  { unfold started, startPractice. rewrite Hrender. destruct s. cbn. auto. }
  destruct Hs as (S1 & S2 & S3 & S4 & S5).
  unfold described. destruct started. cbn in *. subst.
  repeat split; reflexivity.
Qed.

Lemma first_session_succeeds_witness :
  let audio := "AAD/fwCA" in
  let useSlow := true in
  let k := List.length (pipelines init) in
  let started := startPractice init (Some true) init in
  let described := scenarioSettled k (Ok threeTurns) started in
  let final := practice init (Some true) (Ok threeTurns) (Ok (Some audio)) init in
  status started = GENERATING_TEXT /\
  requests started =
    GenerateScenario (selectedLevel init) (selectedTopic init) (selectedDuration init)
                     "Frontend Team Lead / Junior Developer" :: requests init /\
  status described = GENERATING_AUDIO /\
  scenario described = Some threeTurns /\ audioData described = None /\
  requests described = GenerateAudio threeTurns useSlow :: requests started /\
  status final = READY /\
  scenario final = Some threeTurns /\
  audioData final = Some audio /\
  error final = None /\
  playbackProgress final = Fin 0 /\
  requests final = requests described /\
  pipelines final = pipelines init.
Proof.
  apply (first_session_succeeds init init (Some true) threeTurns "A"%char "AD/fwCA").
  reflexivity.
Defined.

(** X18: a click on the slow-mode button of a session that has a
    scenario regenerates the audio only. The flag is flipped, no scenario
    request is issued, and the single request issued is the audio request
    for the scenario in place with the new flag as pacing; when it succeeds
    the session is READY with that same scenario and the new audio. *)
Theorem slow_mode_regenerates_audio_only (s : State) (current : Scenario)
    (c : ascii) (rest : string) :
  scenario s = Some current ->
  let audio := String c rest in
  let clicked := click SlowModeButton s in
  let final := audioSettled (List.length (pipelines s)) (Ok (Some audio)) clicked in
  isSlowMode clicked = negb (isSlowMode s) /\
  status clicked = GENERATING_AUDIO /\
  audioData clicked = None /\ playbackProgress clicked = Fin 0 /\
  requests clicked = GenerateAudio current (negb (isSlowMode s)) :: requests s /\
  scenario clicked = Some current /\
  status final = READY /\
  scenario final = Some current /\
  audioData final = Some audio /\
  isSlowMode final = negb (isSlowMode s) /\
  requests final = requests clicked.
Proof.
  intros Hsc. cbn zeta. unfold click, toggleSlowMode. rewrite Hsc.
  set (clicked := startPractice s (Some (negb (isSlowMode s)))
                    (setIsSlowMode (negb (isSlowMode s)) s)).
  assert (Hp : pipelines clicked = (pipelines s ++ [AwaitAudio])%list).
  { unfold clicked, startPractice. rewrite Hsc. destruct s. reflexivity. }
  rewrite (audioSettled_last _ (Ok (Some (String c rest))) _ Hp). cbn [audioOfResponse].
  unfold clicked, startPractice. rewrite Hsc. destruct s. cbn in *. subst.
  repeat split; reflexivity.
Qed.

Lemma slow_mode_regenerates_audio_only_witness :
  let audio := "AAD/fwCA" in
  let clicked := click SlowModeButton readySession in
  let final := audioSettled (List.length (pipelines readySession)) (Ok (Some audio)) clicked in
  isSlowMode clicked = negb (isSlowMode readySession) /\
  status clicked = GENERATING_AUDIO /\
  audioData clicked = None /\ playbackProgress clicked = Fin 0 /\
  requests clicked
  = GenerateAudio threeTurns (negb (isSlowMode readySession)) :: requests readySession /\
  scenario clicked = Some threeTurns /\
  status final = READY /\
  scenario final = Some threeTurns /\
  audioData final = Some audio /\
  isSlowMode final = negb (isSlowMode readySession) /\
  requests final = requests clicked.
Proof.
  apply (slow_mode_regenerates_audio_only readySession threeTurns "A"%char "AD/fwCA").
  reflexivity.
Defined.

(** X19: the Generate button, when no generation runs. Its handler
    clears the scenario and calls the [startPractice] of the render that
    shows the button, which still reads the scenario of that render. With no
    scenario rendered, a scenario is requested with the selections. With a
    scenario rendered, no scenario is requested: the audio of the rendered
    scenario is requested again, and when that request succeeds the session
    is READY with audio and without a scenario. *)
Theorem generate_reads_the_rendered_scenario (s : State) (c : ascii) (rest : string) :
  generating s = false ->
  let audio := String c rest in
  let clicked := click Generate s in
  let final := audioSettled (List.length (pipelines s)) (Ok (Some audio)) clicked in
  scenario clicked = None /\ audioData clicked = None /\ error clicked = None /\
  playbackProgress clicked = Fin 0 /\
  match scenario s with
  | None =>
      status clicked = GENERATING_TEXT /\
      requests clicked =
        GenerateScenario (selectedLevel s) (selectedTopic s) (selectedDuration s)
                         "Frontend Team Lead / Junior Developer" :: requests s
  | Some rendered =>
      status clicked = GENERATING_AUDIO /\
      requests clicked = GenerateAudio rendered (isSlowMode s) :: requests s /\
      status final = READY /\ audioData final = Some audio /\
      scenario final = None /\ requests final = requests clicked
  end.
Proof.
  intros Hg. cbn zeta. unfold click. rewrite Hg.
  destruct (scenario s) as [rendered|] eqn:Hsc.
  - set (clicked := startPractice s None (setScenario None s)).
    assert (Hp : pipelines clicked = (pipelines s ++ [AwaitAudio])%list).
    { unfold clicked, startPractice. rewrite Hsc. destruct s. reflexivity. }
    rewrite (audioSettled_last _ (Ok (Some (String c rest))) _ Hp). cbn [audioOfResponse].
    unfold clicked, startPractice. rewrite Hsc. destruct s. cbn in *.
    repeat split; reflexivity.
  - unfold startPractice. rewrite Hsc. destruct s. cbn in *.
    repeat split; reflexivity.
Qed.

Lemma generate_reads_the_rendered_scenario_witness :
  let audio := "AAD/fwCA" in
  let clicked := click Generate readySession in
  let final := audioSettled (List.length (pipelines readySession)) (Ok (Some audio)) clicked in
  scenario clicked = None /\ audioData clicked = None /\ error clicked = None /\
  playbackProgress clicked = Fin 0 /\
  match scenario readySession with
  | None =>
      status clicked = GENERATING_TEXT /\
      requests clicked =
        GenerateScenario (selectedLevel readySession) (selectedTopic readySession)
                         (selectedDuration readySession)
                         "Frontend Team Lead / Junior Developer" :: requests readySession
  | Some rendered =>
      status clicked = GENERATING_AUDIO /\
      requests clicked = GenerateAudio rendered (isSlowMode readySession)
                         :: requests readySession /\
      status final = READY /\ audioData final = Some audio /\
      scenario final = None /\ requests final = requests clicked
  end.
Proof.
  apply (generate_reads_the_rendered_scenario readySession "A"%char "AD/fwCA").
  reflexivity.
Defined.

(** *** Translations *)

Lemma translation_after_clicks (clicks : list nat) (visible : Translations) (idx : nat) :
  translationVisible (fold_left (fun v i => toggleTranslation i v) clicks visible) idx
  = xorb (translationVisible visible idx) (Nat.odd (count_occ Nat.eq_dec clicks idx)).
Proof.
  revert visible. induction clicks as [|i clicks IH]; intros visible.
  - cbn. rewrite xorb_false_r. reflexivity.
  - cbn [fold_left count_occ]. rewrite IH.
    destruct (Nat.eq_dec i idx) as [->|Hne].
    + rewrite Nat.odd_succ, <- Nat.negb_odd.
      unfold translationVisible at 1, toggleTranslation. rewrite Nat.eqb_refl.
      destruct (translationVisible visible idx), (Nat.odd _); reflexivity.
    + unfold translationVisible at 1, toggleTranslation.
      replace (idx =? i)%nat with false by (symmetry; apply Nat.eqb_neq; congruence).
      reflexivity.
Qed.

(** X20: the Persian text of a turn is shown exactly when the translate
    button of that turn has been clicked an odd number of times; the clicks
    on the buttons of the other turns do not matter. *)
Theorem translation_shown_after_odd_clicks (clicks : list nat) (idx : nat) :
  translationVisible (fold_left (fun v i => toggleTranslation i v) clicks noTranslations) idx
  = Nat.odd (count_occ Nat.eq_dec clicks idx).
Proof.
  rewrite translation_after_clicks. reflexivity.
Qed.

(** *** Word lookups *)

Lemma toLowerCase_empty (w : string) : toLowerCase w = "" -> w = "".
Proof.
  destruct w; [reflexivity | discriminate].
Qed.

Lemma handleWordClick_asks (word context : string) (s : State) :
  isLookingUp s = false ->
  stripPunctuation word <> "" ->
  handleWordClick word context s =
  set_lookups (lookups s ++ [stripPunctuation word])
    (issue (GetWordDefinition (stripPunctuation word) context) (setIsLookingUp true s)).
Proof.
  intros Hfree Hclean. unfold handleWordClick. rewrite Hfree.
  destruct (String.eqb_spec (stripPunctuation word) ""); [contradiction | reflexivity].
Qed.

(** X21: word lookups are serialised by the busy flag. A click on a word
    that keeps a character once its punctuation is stripped, made while no
    lookup runs, raises the flag and issues one request for the stripped
    word; until the answer comes every further click is ignored; whatever
    the answer, the flag is lowered again, and when the request has failed
    the custom vocabulary is unchanged. *)
Theorem lookup_is_serialised (word context : string) (s : State) :
  isLookingUp s = false ->
  lookups s = [] ->
  stripPunctuation word <> "" ->
  let asked := handleWordClick word context s in
  isLookingUp asked = true /\
  requests asked = GetWordDefinition (stripPunctuation word) context :: requests s /\
  (forall word' context', handleWordClick word' context' asked = asked) /\
  (forall outcome,
     isLookingUp (wordDefined outcome asked) = false /\
     lookups (wordDefined outcome asked) = [] /\
     requests (wordDefined outcome asked) = requests asked) /\
  (forall e, customVocab (wordDefined (Throw e) asked) = customVocab s).
Proof.
  intros Hfree Hnone Hclean. cbn zeta.
  rewrite (handleWordClick_asks word context s Hfree Hclean). rewrite Hnone.
  destruct s. cbn in *. subst.
  split; [reflexivity|]. split; [reflexivity|]. split; [reflexivity|]. split.
  - intros [def|e]; cbn; [|auto].
    destruct (existsb _ _); cbn; auto.
  - reflexivity.
Qed.

Lemma lookup_is_serialised_witness :
  let asked := handleWordClick "pass?." "Did the build pass?." readySession in
  isLookingUp asked = true /\
  requests asked = GetWordDefinition (stripPunctuation "pass?.") "Did the build pass?."
                   :: requests readySession /\
  (forall word' context', handleWordClick word' context' asked = asked) /\
  (forall outcome,
     isLookingUp (wordDefined outcome asked) = false /\
     lookups (wordDefined outcome asked) = [] /\
     requests (wordDefined outcome asked) = requests asked) /\
  (forall e, customVocab (wordDefined (Throw e) asked) = customVocab readySession).
Proof.
  apply (lookup_is_serialised "pass?." "Did the build pass?." readySession).
  - reflexivity.
  - reflexivity.
  - discriminate.
Defined.

Lemma wordDefined_adds (cleanWord : string) (def : VocabularyItem) (s : State) :
  lookups s = [cleanWord] ->
  let s' := wordDefined (Ok def) s in
  isLookingUp s' = false /\ lookups s' = [] /\ requests s' = requests s /\
  customVocab s' =
    (if existsb (fun v => String.eqb (toLowerCase (App.word v)) (toLowerCase cleanWord))
                (customVocab s)
     then customVocab s
     else mkVocabularyItem (App.word def) (partOfSpeech def) (englishMeaning def)
                           (persianMeaning def) (Some true) :: customVocab s).
Proof.
  intros Hl. cbn zeta. unfold wordDefined. rewrite Hl. destruct s. cbn.
  destruct (existsb _ _); cbn; auto.
Qed.

(** X22: the custom vocabulary takes a looked-up word once. When the
    definition that answers a first lookup carries the clicked word (up to
    case), the vocabulary holds an entry for it from then on, and a second
    lookup of a word that differs from the first by punctuation and case
    only issues its request but leaves the vocabulary as it is. *)
Theorem repeated_lookup_adds_nothing (s : State) (word1 context1 word2 context2 : string)
    (def1 def2 : VocabularyItem) :
  isLookingUp s = false ->
  lookups s = [] ->
  stripPunctuation word1 <> "" ->
  toLowerCase (stripPunctuation word2) = toLowerCase (stripPunctuation word1) ->
  toLowerCase (App.word def1) = toLowerCase (stripPunctuation word1) ->
  let first := wordDefined (Ok def1) (handleWordClick word1 context1 s) in
  let second := wordDefined (Ok def2) (handleWordClick word2 context2 first) in
  (exists v, In v (customVocab first) /\
             toLowerCase (App.word v) = toLowerCase (stripPunctuation word1)) /\
  customVocab second = customVocab first /\
  isLookingUp second = false /\
  requests second =
    GetWordDefinition (stripPunctuation word2) context2
      :: GetWordDefinition (stripPunctuation word1) context1 :: requests s.
Proof.
  intros Hfree Hnone Hclean1 Hsame Hecho. cbn zeta.
  assert (Hclean2 : stripPunctuation word2 <> "").
  { intros E. rewrite E in Hsame. cbn in Hsame. symmetry in Hsame.
    apply toLowerCase_empty in Hsame. contradiction. }
  rewrite (handleWordClick_asks word1 context1 s Hfree Hclean1). rewrite Hnone.
  set (asked := set_lookups _ _).
  destruct (wordDefined_adds (stripPunctuation word1) def1 asked) as (F1 & F2 & F3 & F4).
  { unfold asked. destruct s. reflexivity. }
  set (first := wordDefined (Ok def1) asked) in *.
  assert (Hentry : exists v, In v (customVocab first) /\
                     toLowerCase (App.word v) = toLowerCase (stripPunctuation word1)).
  { rewrite F4.
    destruct (existsb _ (customVocab asked)) eqn:E.
    - apply existsb_exists in E. destruct E as (v & Hv & Ev).
      exists v. split; [exact Hv|]. apply String.eqb_eq. exact Ev.
    - eexists. split; [left; reflexivity|]. exact Hecho. }
  rewrite (handleWordClick_asks word2 context2 first F1 Hclean2). rewrite F2.
  set (asked2 := set_lookups _ _).
  destruct (wordDefined_adds (stripPunctuation word2) def2 asked2) as (G1 & G2 & G3 & G4).
  { unfold asked2. destruct first. reflexivity. }
  split; [exact Hentry|].
  assert (Hv2 : customVocab asked2 = customVocab first)
    by (unfold asked2; destruct first; reflexivity).
  split; [|split; [exact G1|]].
  - rewrite G4, Hv2.
    replace (existsb _ (customVocab first)) with true; [reflexivity|].
    symmetry. apply existsb_exists. destruct Hentry as (v & Hv & Ev).
    exists v. split; [exact Hv|]. apply String.eqb_eq. rewrite Ev, Hsame. reflexivity.
  - assert (Hr2 : requests asked2
                  = GetWordDefinition (stripPunctuation word2) context2 :: requests first)
      by (unfold asked2; destruct first; reflexivity).
    assert (Hr1 : requests asked
                  = GetWordDefinition (stripPunctuation word1) context1 :: requests s)
      by (unfold asked; destruct s; reflexivity).
    rewrite G3, Hr2, F3, Hr1. reflexivity.
Qed.

Lemma repeated_lookup_adds_nothing_witness :
  let def1 := mkVocabularyItem "build" "noun" "a compiled version" "" None in
  let def2 := mkVocabularyItem "Build" "verb" "to compile" "" None in
  let first := wordDefined (Ok def1) (handleWordClick "build" "Did the build pass?." init) in
  let second := wordDefined (Ok def2) (handleWordClick "(BUILD)!" "" first) in
  (exists v, In v (customVocab first) /\
             toLowerCase (App.word v) = toLowerCase (stripPunctuation "build")) /\
  customVocab second = customVocab first /\
  isLookingUp second = false /\
  requests second =
    GetWordDefinition (stripPunctuation "(BUILD)!") ""
      :: GetWordDefinition (stripPunctuation "build") "Did the build pass?."
      :: requests init.
Proof.
  apply (repeated_lookup_adds_nothing init "build" "Did the build pass?." "(BUILD)!" ""
           (mkVocabularyItem "build" "noun" "a compiled version" "" None)
           (mkVocabularyItem "Build" "verb" "to compile" "" None)).
  - reflexivity.
  - reflexivity.
  - discriminate.
  - reflexivity.
  - reflexivity.
Defined.

(** *** What the status of a session tells *)

Ltac conjuncts := repeat match goal with |- _ /\ _ => split end.

Lemma run_session_reachable (events : list Event) (s : State) :
  reachable s -> reachable (run events s).
Proof.
  revert s. induction events as [|e events IH]; intros s Hs.
  - exact Hs.
  - cbn [run fold_left]. apply IH. apply session_step. exact Hs.
Qed.

Lemma startPractice_keeps (render : State) (overrideSlowMode : option bool) (s : State) :
  let s' := startPractice render overrideSlowMode s in
  generating s' = true /\ pipelines s' <> [] /\
  isLookingUp s' = isLookingUp s /\ lookups s' = lookups s.
Proof.
  cbn zeta. unfold startPractice.
  destruct (scenario render); destruct s; cbn; repeat split; auto;
    apply not_eq_sym; apply app_cons_not_nil.
Qed.

Lemma click_cases (t : Trigger) (s : State) :
  click t s = s \/
  exists render o s0,
    click t s = startPractice render o s0 /\
    isLookingUp s0 = isLookingUp s /\ lookups s0 = lookups s.
Proof.
  destruct t; cbn [click].
  - destruct (status s); auto. right. exists s, (Some true), s. auto.
  - destruct (generating s); auto. right. exists s, None, (setScenario None s).
    destruct s; auto.
  - destruct (scenario s) eqn:Sc; auto. right. unfold toggleSlowMode. rewrite Sc.
    exists s, (Some (negb (isSlowMode s))), (setIsSlowMode (negb (isSlowMode s)) s).
    destruct s; auto.
Qed.

Lemma reachable_session_ok (s : State) :
  reachable s ->
  (status s = READY -> exists c rest, audioData s = Some (String c rest)) /\
  (status s = ERROR -> error s = Some failureMessage) /\
  (generating s = true -> pipelines s <> []) /\
  status s <> SELECTING_LEVEL /\
  (isLookingUp s = true /\ (exists w, lookups s = [w])
   \/ isLookingUp s = false /\ lookups s = []).
Proof.
  induction 1 as [|e s Hr IH].
  - cbn. conjuncts; try discriminate. right. auto.
  - assert (Hstart : forall render o s0,
              isLookingUp s0 = isLookingUp s -> lookups s0 = lookups s ->
              let s' := startPractice render o s0 in
              (status s' = READY -> exists c rest, audioData s' = Some (String c rest)) /\
              (status s' = ERROR -> error s' = Some failureMessage) /\
              (generating s' = true -> pipelines s' <> []) /\
              status s' <> SELECTING_LEVEL /\
              (isLookingUp s' = true /\ (exists w, lookups s' = [w])
               \/ isLookingUp s' = false /\ lookups s' = [])).
    { intros render o s0 E1 E2. cbn zeta.
      destruct IH as (_ & _ & _ & _ & I5).
      destruct (startPractice_keeps render o s0) as (K1 & K2 & K3 & K4).
      cbn zeta in *. rewrite K3, K4, E1, E2.
      unfold generating in K1.
      destruct (status (startPractice render o s0)); try discriminate;
        conjuncts; auto; discriminate. }
    destruct e as [t | k outcome | k outcome | level | topic | duration
                  | word context | outcome | progress]; cbn [step].
    + destruct (click_cases t s) as [E|(render & o & s0 & E & E1 & E2)]; rewrite E;
        [exact IH | apply Hstart; assumption].
    + unfold scenarioSettled.
      destruct (nth_error (pipelines s) k) as [[useSlow|]|]; try exact IH.
      destruct IH as (I1 & I2 & I3 & I4 & I5).
      destruct outcome as [newScenario|e]; destruct s; cbn in *;
        conjuncts; auto; try discriminate.
      intros _. apply not_eq_sym. apply app_cons_not_nil.
    + unfold audioSettled.
      destruct (nth_error (pipelines s) k) as [[useSlow|]|]; try exact IH.
      destruct IH as (I1 & I2 & I3 & I4 & I5).
      destruct outcome as [[[|c rest]|]|e]; destruct s; cbn in *;
        conjuncts; auto; try discriminate.
      intros _. exists c, rest. reflexivity.
    + destruct s; exact IH.
    + destruct s; exact IH.
    + destruct s; exact IH.
    + unfold handleWordClick.
      destruct (isLookingUp s || String.eqb (stripPunctuation word) "") eqn:G; [exact IH|].
      apply orb_false_iff in G. destruct G as [G _].
      destruct IH as (I1 & I2 & I3 & I4 & I5).
      destruct I5 as [[I5 _]|[_ I5]]; [congruence|].
      destruct s; cbn in *. subst. conjuncts; auto.
      left. split; [reflexivity|]. eexists. reflexivity.
    + destruct IH as (I1 & I2 & I3 & I4 & I5).
      unfold wordDefined. destruct I5 as [[E (w & L)]|[E L]]; rewrite L.
      * destruct outcome as [def|e]; [destruct (existsb _ _)|]; destruct s; cbn in *;
          conjuncts; auto.
      * conjuncts; auto.
    + destruct s; exact IH.
Qed.

(** X23: the status of a session can be trusted. In every state that a
    session reaches: READY means that audio is there to be played, a
    non-empty base64 text; ERROR means that the failure message is set;
    while the status is one of the two generating ones, a call of
    [startPractice] is still waiting for its request; and the status
    SELECTING_LEVEL is never taken. *)
Theorem status_tells_the_truth (s : State) :
  reachable s ->
  (status s = READY -> exists c rest, audioData s = Some (String c rest)) /\
  (status s = ERROR -> error s = Some failureMessage) /\
  (generating s = true -> pipelines s <> []) /\
  status s <> SELECTING_LEVEL.
Proof.
  intros Hr. destruct (reachable_session_ok s Hr) as (I1 & I2 & I3 & I4 & _). auto.
Qed.

Lemma status_tells_the_truth_witness :
  (status readySession = READY ->
   exists c rest, audioData readySession = Some (String c rest)) /\
  (status readySession = ERROR -> error readySession = Some failureMessage) /\
  (generating readySession = true -> pipelines readySession <> []) /\
  status readySession <> SELECTING_LEVEL.
Proof.
  apply (status_tells_the_truth readySession).
  unfold readySession. apply run_session_reachable. exact session_init.
Defined.

(** X24: in every state that a session reaches, at most one word lookup
    is waiting for its answer, and the busy flag is raised exactly while one
    is. *)
Theorem at_most_one_lookup_waits (s : State) :
  reachable s ->
  (List.length (lookups s) <= 1)%nat /\
  (isLookingUp s = true <-> lookups s <> []).
Proof.
  intros Hr. destruct (reachable_session_ok s Hr) as (_ & _ & _ & _ & I5).
  destruct I5 as [[E (w & L)]|[E L]]; rewrite E, L; cbn; split; try lia;
    split; try discriminate; auto; intros H; contradiction.
Qed.

Lemma at_most_one_lookup_waits_witness :
  let s := run [WordClick "build" "Did the build pass?."; WordClick "pass?." ""] readySession in
  (List.length (lookups s) <= 1)%nat /\
  (isLookingUp s = true <-> lookups s <> []).
Proof.
  apply (at_most_one_lookup_waits
           (run [WordClick "build" "Did the build pass?."; WordClick "pass?." ""] readySession)).
  apply run_session_reachable. unfold readySession. apply run_session_reachable.
  exact session_init.
Defined.

(** *** The turn synchroniser on any progress *)

Local Open Scope Q_scope.







(** *** The highlight never moves back *)







End AppFacts.
